(** * Campus-Sync backend: the credential lifecycle of [backend/routes/authRoutes.js]

    A shallow embedding of the two request handlers [POST /register] and
    [POST /login], of the token helper [generateToken], and of the
    collaborators they call (the mongoose [User] model, [bcryptjs],
    [jsonwebtoken]), followed by the properties the specification states
    about them.

    Effects are explicit.  A handler reads one [World] per request (clock,
    the ObjectId drawn by [new User], the salt drawn by [bcrypt.hash], and
    the faults the database driver raises) and threads the [Store] of user
    documents.  [await] is the bind of a state-and-exception monad, and the
    handlers' [try { ... } catch (error) { ... }] is [try_catch]. *)

From Stdlib Require Import ZArith Lia.
From stdpp Require Import base option list strings gmap.

Local Open Scope string_scope.
Local Open Scope Z_scope.

(** ** JavaScript values of the request body *)

(** A field of [req.body] is a string or is missing ([undefined]).  These
    are the bodies the embedding covers, and the ones the page sends; a
    body with another JSON value in a field (a number, an object) is
    outside it. *)
Module Req.
Record body := { email : option string; password : option string; role : option string }.
End Req.

(** [!x] is [negb (truthy x)]: [undefined] and the empty string are falsy. *)
Definition truthy (x : option string) : bool :=
  match x with
  | None => false
  | Some s => negb (bool_decide (s = ""))
  end.

(** The string a truthy field holds. *)
Definition str (x : option string) : string := default "" x.

(** ** jsonwebtoken *)

Module jwt.
Record payload := { id : N; iat : Z; exp : Z }.

(** The HMAC of a payload under a key, kept symbolic: a signature matches
    exactly the key and the payload it was computed from. *)
Inductive signature := HS256 (key : string) (p : payload).

Record token := { claims : payload; sig : signature }.

#[global] Instance payload_eq_dec : EqDecision payload.
Proof. solve_decision. Defined.
#[global] Instance signature_eq_dec : EqDecision signature.
Proof. solve_decision. Defined.
#[global] Instance token_eq_dec : EqDecision token.
Proof. solve_decision. Defined.

Inductive error := InvalidToken.

(** Modelled from the spec: [jwt.sign] of the jsonwebtoken package, which
    is not part of the source tree.  "[issue] embeds [accountId] as
    subject, sets issued-at to current time, sets expiry at +7 days, signs
    with the process secret".  [expiresIn] and [now] are in seconds, the
    unit of the [iat] and [exp] claims. *)
Definition sign (id : N) (secretOrPrivateKey : string) (expiresIn : Z) (now : Z) : token :=
  let p := {| id := id; iat := now; exp := now + expiresIn |} in
  {| claims := p; sig := HS256 secretOrPrivateKey p |}.

(** Modelled from the spec: the token verifier, which the repository does
    not contain (no route verifies a token).  "[verify] fails with
    InvalidToken if the signature does not match, the payload is
    malformed, or the current time is at/after expiry"; otherwise "the
    subject identifier is returned to the caller". *)
Definition verify (t : token) (secretOrPublicKey : string) (now : Z) : N + error :=
  if negb (bool_decide (sig t = HS256 secretOrPublicKey (claims t))) then inr InvalidToken
  else if bool_decide (exp (claims t) <= now) then inr InvalidToken
  else inl (id (claims t)).

Definition key_of (t : token) : string :=
  match sig t with HS256 k _ => k end.
End jwt.

(** ** JSON responses *)

#[local] Set Warnings "-register-all".
Inductive json :=
| JString (s : string)
| JObjectId (i : N)
| JDate (t : Z)
| JNumber (n : Z)
| JToken (t : jwt.token)
| JObject (members : list (string * json)).

Record response := { status : Z; body : json }.

(** [res.status(code).json(obj)]; a bare [res.json(obj)] answers 200. *)
Definition res_status_json (code : Z) (obj : list (string * json)) : response :=
  {| status := code; body := JObject obj |}.
Definition res_json (obj : list (string * json)) : response := res_status_json 200 obj.

(** Member access on a JSON value. *)
Fixpoint assoc (k : string) (ms : list (string * json)) : option json :=
  match ms with
  | [] => None
  | (k', v) :: ms' => if bool_decide (k = k') then Some v else assoc k ms'
  end.

Definition member (k : string) (j : json) : option json :=
  match j with
  | JObject ms => assoc k ms
  | _ => None
  end.

Definition keys (j : json) : list string :=
  match j with
  | JObject ms => ms.*1
  | _ => []
  end.

(** Every member name occurring in a JSON value, at any depth. *)
Fixpoint all_keys (j : json) : list string :=
  match j with
  | JObject ms =>
      (fix go (l : list (string * json)) : list string :=
         match l with
         | [] => []
         | (k, v) :: l' => k :: (all_keys v ++ go l')%list
         end) ms
  | _ => []
  end.

(** The token a response carries, if it carries one. *)
Definition token_of (r : response) : option jwt.token :=
  match member "token" (body r) with
  | Some (JToken t) => Some t
  | _ => None
  end.

(** What one request observes of the outside. *)
Record World := {
  clock : Z;                      (* the current time, in seconds *)
  objectid : N;                   (* the ObjectId [new User] draws *)
  salt : string;                  (* the salt [bcrypt.hash] draws *)
  findOne_fault : option string;  (* the error the driver raises in [findOne], if any *)
  save_fault : option string      (* the error the driver raises in [save], if any *)
}.

(** ** Promises: state and exceptions *)

Inductive outcome (A : Type) :=
| Ok (a : A)
| Throw (message : string).
Arguments Ok {A} a.
Arguments Throw {A} message.

(** A promise over a store of type [S]. *)
Definition Promise (S A : Type) : Type := World -> S -> outcome A * S.

Definition ret {S A} (a : A) : Promise S A := fun _ st => (Ok a, st).

Definition bind {S A B} (m : Promise S A) (k : A -> Promise S B) : Promise S B :=
  fun w st =>
    match m w st with
    | (Ok a, st') => k a w st'
    | (Throw e, st') => (Throw e, st')
    end.

Definition try_catch {S A} (m : Promise S A) (handler : string -> Promise S A) : Promise S A :=
  fun w st =>
    match m w st with
    | (Ok a, st') => (Ok a, st')
    | (Throw e, st') => handler e w st'
    end.

(** [const x = await m; k].  The same bind sequences the calls that are
    synchronous in the source but read the world ([new User], the clock). *)
Notation "'const' x ':=' 'await' m 'in' k" := (bind m (fun x => k))
  (at level 10, x name, m at level 100, k at level 200).

(** ** The mongoose model [User] and the store behind it *)

(** Modelled from the spec: [models/User.js] and the mongoose calls on it,
    which are not in the source tree.  The schema is the one
    [Documentations/backend_docs.md] reproduces (section 5): [email]
    required and unique, [password] required, [role] required with an enum
    of four values, [timestamps: true].  The operations follow the Identity
    Store Adapter of the specification: [findOne] is "findByEmail" and
    "findByEmailAndRole" (absent is a result, not an error), [save] is
    "insert", and each "may fail with a StoreUnavailable condition". *)
Module User.
(** A document of the [users] collection.  The timestamps are absent
    until the document is saved. *)
Record t := {
  _id : N;
  email : string;
  password : string;
  role : string;
  createdAt : option Z;
  updatedAt : option Z
}.

#[global] Instance eq_dec : EqDecision t.
Proof. solve_decision. Defined.

(** The [enum] of the schema path [role]. *)
Definition role_enum : list string := ["student"; "teacher"; "admin"; "parent"].

(** Promises over the collection, a list of documents in insertion
    order. *)
Abbreviation Async := (Promise (list t)).

(** The string-valued paths of the schema. *)
Definition path (k : string) (u : t) : option string :=
  if bool_decide (k = "email") then Some (email u)
  else if bool_decide (k = "password") then Some (password u)
  else if bool_decide (k = "role") then Some (role u)
  else None.

(** A query document of equality conditions, all of which must hold. *)
Definition matches (conditions : list (string * string)) (u : t) : bool :=
  forallb (fun c => bool_decide (path c.1 u = Some c.2)) conditions.

(** [User.findOne(conditions)]: the first matching document, in
    insertion order, or [null]. *)
Definition findOne (conditions : list (string * string)) : Async (option t) :=
  fun w st =>
    match findOne_fault w with
    | Some e => (Throw e, st)
    | None => (Ok (head (filter (fun u => matches conditions u) st)), st)
    end.

(** [new User({ email, password, role })]: a document with a new
    ObjectId, not yet in the collection. *)
Definition new (email password role : string) : Async t :=
  fun w st =>
    (Ok {| _id := objectid w; email := email; password := password; role := role;
           createdAt := None; updatedAt := None |}, st).

(** Schema validation: the three paths are [required], [role] has an
    [enum]. *)
Definition validate (u : t) : bool :=
  negb (bool_decide (email u = "")) && negb (bool_decide (password u = ""))
  && negb (bool_decide (role u = "")) && bool_decide (role u ∈ role_enum).

(** [timestamps: true]: a document saved for the first time gets both
    timestamps. *)
Definition stamp (now : Z) (u : t) : t :=
  {| _id := _id u; email := email u; password := password u; role := role u;
     createdAt := Some now; updatedAt := Some now |}.

(** [user.save()]: validates, stamps the document ([timestamps: true])
    and inserts it; the collection has unique indexes on [_id] and on
    [email] ([unique: true]).  The saved document is the value of the
    promise: [save] updates [user] in place, so what the handler reads
    from [user] afterwards is this document. *)
Definition save (u : t) : Async t :=
  fun w st =>
    match save_fault w with
    | Some e => (Throw e, st)
    | None =>
        if negb (validate u) then (Throw "User validation failed", st)
        else if bool_decide (_id u ∈ _id <$> st) || bool_decide (email u ∈ email <$> st)
        then (Throw "E11000 duplicate key error collection", st)
        else
          let u' := stamp (clock w) u in
          (Ok u', (st ++ [u'])%list)
    end.

(** [res.json] of a whole document: every path it has, the digest
    included, and the version key mongoose adds. *)
Definition toJSON (u : t) : json :=
  JObject ([("_id", JObjectId (_id u)); ("email", JString (email u));
            ("password", JString (password u)); ("role", JString (role u))]
           ++ from_option (fun d => [("createdAt", JDate d)]) [] (createdAt u)
           ++ from_option (fun d => [("updatedAt", JDate d)]) [] (updatedAt u)
           ++ [("__v", JNumber 0)])%list.
End User.

(** The collection, in insertion order. *)
Abbreviation Store := (list User.t).
Abbreviation Async := (Promise Store).

(** ** bcryptjs *)

(** The two functions of the package the handlers call.  The package is
    not in the source tree, so the handlers are parametrised by it.  [hash]
    is given the salt it would draw; [rounds] is its cost factor. *)
Class Bcrypt := {
  bcrypt_hash : string -> nat -> string -> string;   (* plaintext, rounds, salt *)
  bcrypt_compare : string -> string -> bool          (* plaintext, digest *)
}.

(** ** [routes/authRoutes.js] *)

(** [expiresIn: "7d"], in seconds. *)
Definition expiresIn_7d : Z := 7 * 24 * 60 * 60.

(** [const generateToken = (id) => jwt.sign({ id }, "your_jwt_secret", { expiresIn: "7d" })],
    with the time [jwt.sign] reads made an argument. *)
Definition generateToken (id : N) (now : Z) : jwt.token :=
  jwt.sign id "your_jwt_secret" expiresIn_7d now.

(** The clock, as [jwt.sign] reads it. *)
Definition Date_now : Async Z := fun w st => (Ok (clock w), st).

Section Routes.
Context {bcrypt : Bcrypt}.

(** [bcrypt.hash(s, rounds)] and [bcrypt.compare(s, digest)] as promises. *)
Definition hash (s : string) (rounds : nat) : Async string :=
  fun w st => (Ok (bcrypt_hash s rounds (salt w)), st).
Definition compare (s digest : string) : Async bool :=
  fun w st => (Ok (bcrypt_compare s digest), st).

(** The body of the [try] of [router.post("/register", ...)]. *)
Definition register_try (req : Req.body) : Async response :=
  let email := Req.email req in
  let password := Req.password req in
  let role := Req.role req in
  if negb (truthy email) || negb (truthy password) || negb (truthy role) then
    ret (res_status_json 400 [("message", JString "All fields are required")])
  else
    let email := str email in
    let password := str password in
    let role := str role in
    if negb (bool_decide (role ∈ ["student"; "teacher"; "admin"; "parent"])) then
      ret (res_status_json 400 [("message", JString "Invalid role")])
    else
      const userExists := await User.findOne [("email", email)] in
      match userExists with
      | Some _ => ret (res_status_json 400 [("message", JString "User already exists")])
      | None =>
          const hashedPassword := await hash password 10 in
          const user := await User.new email hashedPassword role in
          const user := await User.save user in
          const now := await Date_now in
          ret (res_status_json 201
                 [("message", JString (role +:+ " registered successfully"));
                  ("token", JToken (generateToken (User._id user) now));
                  ("user", JObject [("id", JObjectId (User._id user));
                                    ("email", JString (User.email user));
                                    ("role", JString (User.role user))])])
      end.

(** [catch (error) { res.status(500).json({ message: "Server error", error: error.message }) }] *)
Definition server_error (error : string) : Async response :=
  ret (res_status_json 500 [("message", JString "Server error"); ("error", JString error)]).

Definition register (req : Req.body) : Async response :=
  try_catch (register_try req) server_error.

(** The body of the [try] of [router.post("/login", ...)]. *)
Definition login_try (req : Req.body) : Async response :=
  let email := Req.email req in
  let password := Req.password req in
  let role := Req.role req in
  if negb (truthy email) || negb (truthy password) || negb (truthy role) then
    ret (res_status_json 400 [("message", JString "All fields are required")])
  else
    let email := str email in
    let password := str password in
    let role := str role in
    const user := await User.findOne [("email", email); ("role", role)] in
    match user with
    | None => ret (res_status_json 400 [("message", JString "User not found for this role")])
    | Some user =>
        const isMatch := await compare password (User.password user) in
        if negb isMatch then
          ret (res_status_json 400 [("message", JString "Invalid password")])
        else
          const now := await Date_now in
          ret (res_json
                 [("message", JString (role +:+ " login successful"));
                  ("token", JToken (generateToken (User._id user) now));
                  ("user", JObject [("id", JObjectId (User._id user));
                                    ("email", JString (User.email user));
                                    ("role", JString (User.role user))])])
    end.

Definition login (req : Req.body) : Async response :=
  try_catch (login_try req) server_error.

End Routes.

(** ** The handlers of the second routes file

    The source tree has a second file with the same two routes (its name is
    not known); it has no token and answers with the whole document. *)

Module Part000.
Section Routes.
Context {bcrypt : Bcrypt}.

(** The body of the [try] of its [router.post("/register", ...)]:
    [res.status(201).json({ message, user })]. *)
Definition register_try (req : Req.body) : Async response :=
  let email := Req.email req in
  let password := Req.password req in
  let role := Req.role req in
  if negb (truthy email) || negb (truthy password) || negb (truthy role) then
    ret (res_status_json 400 [("message", JString "All fields are required")])
  else
    let email := str email in
    let password := str password in
    let role := str role in
    if negb (bool_decide (role ∈ ["student"; "teacher"; "admin"; "parent"])) then
      ret (res_status_json 400 [("message", JString "Invalid role")])
    else
      const userExists := await User.findOne [("email", email)] in
      match userExists with
      | Some _ => ret (res_status_json 400 [("message", JString "User already exists")])
      | None =>
          const hashedPassword := await hash password 10 in
          const user := await User.new email hashedPassword role in
          const user := await User.save user in
          ret (res_status_json 201
                 [("message", JString (role +:+ " registered successfully"));
                  ("user", User.toJSON user)])
      end.

Definition register (req : Req.body) : Async response :=
  try_catch (register_try req) server_error.

(** The body of the [try] of its [router.post("/login", ...)]:
    [res.json({ message, user })]. *)
Definition login_try (req : Req.body) : Async response :=
  let email := Req.email req in
  let password := Req.password req in
  let role := Req.role req in
  if negb (truthy email) || negb (truthy password) || negb (truthy role) then
    ret (res_status_json 400 [("message", JString "All fields are required")])
  else
    let email := str email in
    let password := str password in
    let role := str role in
    const user := await User.findOne [("email", email); ("role", role)] in
    match user with
    | None => ret (res_status_json 400 [("message", JString "User not found for this role")])
    | Some user =>
        const isMatch := await compare password (User.password user) in
        if negb isMatch then
          ret (res_status_json 400 [("message", JString "Invalid password")])
        else
          ret (res_json
                 [("message", JString (role +:+ " login successful"));
                  ("user", User.toJSON user)])
    end.

Definition login (req : Req.body) : Async response :=
  try_catch (login_try req) server_error.
End Routes.
End Part000.

(** ** The token helper as the repository documents it *)

(** [Documentations/backend_docs.md], section 6:
    [jwt.sign({ id }, process.env.JWT_SECRET, { expiresIn: "7d" })], with
    [process.env] as [dotenv.config()] has filled it at startup. *)
Definition generateToken_documented (env : gmap string string) (id : N) (now : Z) : jwt.token :=
  jwt.sign id (default "" (env !! "JWT_SECRET")) expiresIn_7d now.

(** ** Concrete runs *)

(** A stand-in for bcryptjs on which the handlers can be run: the digest is
    the salt followed by the plaintext, and a plaintext matches a digest
    that ends with it. *)
Definition demo_bcrypt : Bcrypt := {|
  bcrypt_hash plaintext _ salt := salt +:+ plaintext;
  bcrypt_compare plaintext digest :=
    bool_decide (String.substring (String.length digest - String.length plaintext)
                   (String.length plaintext) digest = plaintext)
|}.

Definition request (email password role : string) : Req.body :=
  {| Req.email := Some email; Req.password := Some password; Req.role := Some role |}.

(** A request served with the store reachable. *)
Definition world (clock : Z) (objectid : N) (salt : string) : World :=
  {| clock := clock; objectid := objectid; salt := salt; findOne_fault := None; save_fault := None |}.

(** ** The outcomes of the specification, as the responses that carry them *)

Definition bad_request (message : string) : response :=
  res_status_json 400 [("message", JString message)].

Definition InvalidInput_fields : response := bad_request "All fields are required".
Definition InvalidInput_role : response := bad_request "Invalid role".
Definition DuplicateEmail : response := bad_request "User already exists".
Definition NotFoundForRole : response := bad_request "User not found for this role".
Definition InvalidPassword : response := bad_request "Invalid password".
Definition StoreUnavailable (error : string) : response :=
  res_status_json 500 [("message", JString "Server error"); ("error", JString error)].

(** The account as both handlers hand it out. *)
Definition account_view (u : User.t) : json :=
  JObject [("id", JObjectId (User._id u)); ("email", JString (User.email u));
           ("role", JString (User.role u))].

Definition registered (role : string) (u : User.t) (now : Z) : response :=
  res_status_json 201
    [("message", JString (role +:+ " registered successfully"));
     ("token", JToken (generateToken (User._id u) now));
     ("user", account_view u)].

Definition logged_in (role : string) (u : User.t) (now : Z) : response :=
  res_json
    [("message", JString (role +:+ " login successful"));
     ("token", JToken (generateToken (User._id u) now));
     ("user", account_view u)].

(** The same document with another digest. *)
Definition with_password (digest : string) (u : User.t) : User.t :=
  {| User._id := User._id u; User.email := User.email u; User.password := digest;
     User.role := User.role u; User.createdAt := User.createdAt u;
     User.updatedAt := User.updatedAt u |}.

(** The answer carries an account whose members are exactly [fields]. *)
Definition returns_account (fields : list string) (r : response) : Prop :=
  ∃ j, member "user" (body r) = Some j ∧ keys j ≡ₚ fields.

(** ** Store invariants *)

(** No two accounts share an email. *)
Definition emails_unique (st : Store) : Prop := NoDup (User.email <$> st).

(** Every stored role is one of the four of the schema. *)
Definition roles_valid (st : Store) : Prop := Forall (fun u => User.role u ∈ User.role_enum) st.

(** ** The runs of the handlers *)

Section Answers.
Context {bcrypt : Bcrypt}.
Implicit Types (req : Req.body) (w : World) (st : Store) (u : User.t) (r : response).

(** The fields of a request that passes the first check. *)
Definition fields_present req : bool :=
  truthy (Req.email req) && truthy (Req.password req) && truthy (Req.role req).

(** The document [new User] builds for a request. *)
Definition drafted req w : User.t :=
  {| User._id := objectid w; User.email := str (Req.email req);
     User.password := bcrypt_hash (str (Req.password req)) 10 (salt w);
     User.role := str (Req.role req);
     User.createdAt := None; User.updatedAt := None |}.

(** Every way [register] answers. *)
Inductive registers req w st : response → Store → Prop :=
| registers_missing :
    fields_present req = false →
    registers req w st InvalidInput_fields st
| registers_bad_role :
    fields_present req = true → str (Req.role req) ∉ User.role_enum →
    registers req w st InvalidInput_role st
| registers_duplicate u :
    fields_present req = true → str (Req.role req) ∈ User.role_enum →
    u ∈ st → User.email u = str (Req.email req) →
    registers req w st DuplicateEmail st
| registers_unavailable e :
    fields_present req = true → str (Req.role req) ∈ User.role_enum →
    registers req w st (StoreUnavailable e) st
| registers_created :
    fields_present req = true → str (Req.role req) ∈ User.role_enum →
    str (Req.email req) ∉ User.email <$> st →
    objectid w ∉ User._id <$> st →
    registers req w st
      (registered (str (Req.role req)) (User.stamp (clock w) (drafted req w)) (clock w))
      (st ++ [User.stamp (clock w) (drafted req w)])%list.

(** Every way [login] answers; it never writes. *)
Inductive logs_in req w st : response → Prop :=
| logs_in_missing :
    fields_present req = false →
    logs_in req w st InvalidInput_fields
| logs_in_unavailable e :
    fields_present req = true → findOne_fault w = Some e →
    logs_in req w st (StoreUnavailable e)
| logs_in_not_found :
    fields_present req = true →
    (∀ u, u ∈ st → ¬ (User.email u = str (Req.email req) ∧ User.role u = str (Req.role req))) →
    logs_in req w st NotFoundForRole
| logs_in_bad_password u :
    fields_present req = true → u ∈ st →
    User.email u = str (Req.email req) → User.role u = str (Req.role req) →
    bcrypt_compare (str (Req.password req)) (User.password u) = false →
    logs_in req w st InvalidPassword
| logs_in_ok u :
    fields_present req = true → u ∈ st →
    User.email u = str (Req.email req) → User.role u = str (Req.role req) →
    bcrypt_compare (str (Req.password req)) (User.password u) = true →
    logs_in req w st (logged_in (str (Req.role req)) u (clock w)).

(** The stores the two handlers lead to from the empty collection. *)
Inductive reachable : Store → Prop :=
| reachable_empty : reachable []
| reachable_register req w st : reachable st → reachable (register req w st).2
| reachable_login req w st : reachable st → reachable (login req w st).2.
End Answers.

(** The account of the scenario of the specification. *)
Definition alice : User.t :=
  {| User._id := 7; User.email := "a@x.com"; User.password := "s1pw1"; User.role := "student";
     User.createdAt := Some 1000; User.updatedAt := Some 1000 |}.

(** ** [src/pages/Auth.tsx] *)

(** What a JavaScript computation of the page ends in: a value, or a thrown
    error.  An [Error] is kept as the value its message is built from. *)
Inductive result (A : Type) :=
| Returned (a : A)
| Thrown (error : json).
Arguments Returned {A} a.
Arguments Thrown {A} error.

(** Truthiness of a JSON value that may be [undefined].  Ids, dates and
    tokens are non-empty strings on the wire. *)
Definition js_truthy (x : option json) : bool :=
  match x with
  | None => false
  | Some (JString s) => negb (bool_decide (s = ""))
  | Some (JNumber n) => negb (bool_decide (n = 0))
  | Some _ => true
  end.

(** [x === s] for a string literal [s]. *)
Definition js_is (s : string) (x : option json) : bool :=
  match x with
  | Some (JString s') => bool_decide (s' = s)
  | _ => false
  end.

(** [x || s] for a string [s]. *)
Definition js_or (x : option json) (s : string) : json :=
  if js_truthy x then default (JString s) x else JString s.

Module Auth.
(** ['student' | 'admin' | 'teacher' | 'parent'] *)
Inductive role := student | admin | teacher | parent.

Definition role_string (r : role) : string :=
  match r with
  | student => "student"
  | admin => "admin"
  | teacher => "teacher"
  | parent => "parent"
  end.

(** The [useState] cells of the component. *)
Record state := {
  email : string;
  password : string;
  confirmPassword : string;
  name : string;
  collegeName : string;
  showPassword : bool;
  showConfirmPassword : bool;
  isLoading : bool;
  formStep : Z;
  showMobileForm : bool;
  selectedRole : option role;
  showRoleSelection : bool;
  isSignUp : bool
}.

(** The first render; [mode_signup] is [searchParams.get('mode') === 'signup']. *)
Definition initial (mode_signup : bool) : state :=
  {| email := ""; password := ""; confirmPassword := ""; name := ""; collegeName := "";
     showPassword := false; showConfirmPassword := false; isLoading := false;
     formStep := 1; showMobileForm := false; selectedRole := None;
     showRoleSelection := false; isSignUp := mode_signup |}.

Definition setConfirmPassword (v : string) (s : state) : state :=
  {| email := email s; password := password s; confirmPassword := v; name := name s;
     collegeName := collegeName s; showPassword := showPassword s;
     showConfirmPassword := showConfirmPassword s; isLoading := isLoading s;
     formStep := formStep s; showMobileForm := showMobileForm s;
     selectedRole := selectedRole s; showRoleSelection := showRoleSelection s;
     isSignUp := isSignUp s |}.

Definition setIsLoading (v : bool) (s : state) : state :=
  {| email := email s; password := password s; confirmPassword := confirmPassword s;
     name := name s; collegeName := collegeName s; showPassword := showPassword s;
     showConfirmPassword := showConfirmPassword s; isLoading := v;
     formStep := formStep s; showMobileForm := showMobileForm s;
     selectedRole := selectedRole s; showRoleSelection := showRoleSelection s;
     isSignUp := isSignUp s |}.

Definition setFormStep (v : Z) (s : state) : state :=
  {| email := email s; password := password s; confirmPassword := confirmPassword s;
     name := name s; collegeName := collegeName s; showPassword := showPassword s;
     showConfirmPassword := showConfirmPassword s; isLoading := isLoading s;
     formStep := v; showMobileForm := showMobileForm s;
     selectedRole := selectedRole s; showRoleSelection := showRoleSelection s;
     isSignUp := isSignUp s |}.

Definition setShowMobileForm (v : bool) (s : state) : state :=
  {| email := email s; password := password s; confirmPassword := confirmPassword s;
     name := name s; collegeName := collegeName s; showPassword := showPassword s;
     showConfirmPassword := showConfirmPassword s; isLoading := isLoading s;
     formStep := formStep s; showMobileForm := v;
     selectedRole := selectedRole s; showRoleSelection := showRoleSelection s;
     isSignUp := isSignUp s |}.

Definition setSelectedRole (v : option role) (s : state) : state :=
  {| email := email s; password := password s; confirmPassword := confirmPassword s;
     name := name s; collegeName := collegeName s; showPassword := showPassword s;
     showConfirmPassword := showConfirmPassword s; isLoading := isLoading s;
     formStep := formStep s; showMobileForm := showMobileForm s;
     selectedRole := v; showRoleSelection := showRoleSelection s;
     isSignUp := isSignUp s |}.

Definition setShowRoleSelection (v : bool) (s : state) : state :=
  {| email := email s; password := password s; confirmPassword := confirmPassword s;
     name := name s; collegeName := collegeName s; showPassword := showPassword s;
     showConfirmPassword := showConfirmPassword s; isLoading := isLoading s;
     formStep := formStep s; showMobileForm := showMobileForm s;
     selectedRole := selectedRole s; showRoleSelection := v;
     isSignUp := isSignUp s |}.

Definition setIsSignUp (v : bool) (s : state) : state :=
  {| email := email s; password := password s; confirmPassword := confirmPassword s;
     name := name s; collegeName := collegeName s; showPassword := showPassword s;
     showConfirmPassword := showConfirmPassword s; isLoading := isLoading s;
     formStep := formStep s; showMobileForm := showMobileForm s;
     selectedRole := selectedRole s; showRoleSelection := showRoleSelection s;
     isSignUp := v |}.

(** [nextStep]: [if (isSignUp && formStep === 1) setFormStep(2)]. *)
Definition nextStep (s : state) : state :=
  if isSignUp s && bool_decide (formStep s = 1) then setFormStep 2 s else s.

(** [prevStep]: [if (formStep === 2) setFormStep(1)]. *)
Definition prevStep (s : state) : state :=
  if bool_decide (formStep s = 2) then setFormStep 1 s else s.

(** [handleRoleSelect(role)], with [isMobile] as the hook gives it. *)
Definition handleRoleSelect (isMobile : bool) (r : role) (s : state) : state :=
  let s := setSelectedRole (Some r) s in
  let s := setIsSignUp false s in
  if isMobile then setShowMobileForm true s else s.

(** [handleMobileBack]. *)
Definition handleMobileBack (s : state) : state :=
  match selectedRole s with
  | Some _ => setShowMobileForm false (setShowRoleSelection true s)
  | None => setShowMobileForm false s
  end.

(** The [setIsSignUp] handed to [AuthForm]:
    [(value) => { setIsSignUp(value); setFormStep(1); }]. *)
Definition AuthForm_setIsSignUp (value : bool) (s : state) : state :=
  setFormStep 1 (setIsSignUp value s).

(** What the component renders. *)
Inductive view :=
| MobileHero
| MobileRoleSelection
| MobileForm
| DesktopRoleSelection
| DesktopForm.

Definition render (isMobile : bool) (s : state) : view :=
  if isMobile then
    if negb (showRoleSelection s) && negb (showMobileForm s) then MobileHero
    else if showRoleSelection s && negb (showMobileForm s) then MobileRoleSelection
    else MobileForm
  else
    match selectedRole s with
    | None => DesktopRoleSelection
    | Some _ => DesktopForm
    end.

(** The views that show [AuthForm], whose [onSubmit] is [handleSubmit]. *)
Definition shows_form (v : view) : bool :=
  match v with
  | MobileForm | DesktopForm => true
  | _ => false
  end.

(** The routes [handleSubmit] posts to, and their URLs. *)
Inductive endpoint := Register | Login.

Definition API_URL : string := "http://localhost:5000/api/auth".

Definition url (e : endpoint) : string :=
  match e with
  | Register => API_URL +:+ "/register"
  | Login => API_URL +:+ "/login"
  end.

(** [role: selectedRole ?? "student"]. *)
Definition role_sent (s : state) : string :=
  match selectedRole s with
  | Some r => role_string r
  | None => "student"
  end.

(** The body the server reads of what [JSON.stringify] sends: the routes
    destructure [email], [password] and [role] and nothing else, so [name]
    and [collegeName] of the sign-up body do not reach them. *)
Definition body_sent (s : state) : Req.body :=
  request (email s) (password s) (role_sent s).

(** [response.ok]. *)
Definition ok (r : response) : bool :=
  bool_decide (200 <= status r) && bool_decide (status r <= 299).

(** The redirect:
    [role === "admin" ? "/admin/profile" : role === "teacher" ? "/teacher/profile" : "/"]. *)
Definition panelPath (role : option json) : string :=
  if js_is "admin" role then "/admin/profile"
  else if js_is "teacher" role then "/teacher/profile"
  else "/".
End Auth.

(** *** [handleSubmit] *)

(** The page in its browser, with the server's collection behind it. *)
Record system (C : Type) := {
  page : Auth.state;
  localStorage : gmap string json;
  location : option string;   (* the target of the last [navigate] *)
  console : list json;        (* what [console.error] has logged *)
  context : C;                (* the state behind [useAuth] and [useUserData] *)
  db : Store                  (* the [users] collection of the server *)
}.
Arguments page {C} _.
Arguments localStorage {C} _.
Arguments location {C} _.
Arguments console {C} _.
Arguments context {C} _.
Arguments db {C} _.

(** What one submission observes of the outside: whether [fetch] fails, and
    the world of the request the server handles. *)
Record visit := {
  network_error : option json;
  server : World
}.

Definition Client (C A : Type) : Type := visit -> system C -> result A * system C.

Definition cret {C A} (a : A) : Client C A := fun _ s => (Returned a, s).

Definition cbind {C A B} (m : Client C A) (k : A -> Client C B) : Client C B :=
  fun v s =>
    match m v s with
    | (Returned a, s') => k a v s'
    | (Thrown e, s') => (Thrown e, s')
    end.

Definition throw {C A} (error : json) : Client C A := fun _ s => (Thrown error, s).

Definition ctry_catch {C A} (m : Client C A) (handler : json -> Client C A) : Client C A :=
  fun v s =>
    match m v s with
    | (Returned a, s') => (Returned a, s')
    | (Thrown e, s') => handler e v s'
    end.

(** [try { m } finally { f }]: [f] runs in both cases, and what [m] ended
    in stands unless [f] throws. *)
Definition finally {C A} (m : Client C A) (f : Client C unit) : Client C A :=
  fun v s =>
    match m v s with
    | (o, s') =>
        match f v s' with
        | (Returned _, s'') => (o, s'')
        | (Thrown e, s'') => (Thrown e, s'')
        end
    end.

Declare Scope client_scope.
Delimit Scope client_scope with client.
Notation "'const' x ':=' 'await' m 'in' k" := (cbind m (fun x => k)) : client_scope.

Definition set_page {C} (f : Auth.state -> Auth.state) : Client C unit :=
  fun _ s =>
    (Returned tt, {| page := f (page s); localStorage := localStorage s; location := location s;
                     console := console s; context := context s; db := db s |}).

Definition localStorage_setItem {C} (key : string) (value : json) : Client C unit :=
  fun _ s =>
    (Returned tt, {| page := page s; localStorage := <[key := value]> (localStorage s);
                     location := location s; console := console s; context := context s;
                     db := db s |}).

Definition navigate {C} (path : string) : Client C unit :=
  fun _ s =>
    (Returned tt, {| page := page s; localStorage := localStorage s; location := Some path;
                     console := console s; context := context s; db := db s |}).

Definition console_error {C} (error : json) : Client C unit :=
  fun _ s =>
    (Returned tt, {| page := page s; localStorage := localStorage s; location := location s;
                     console := (console s ++ [error])%list; context := context s; db := db s |}).

(** A hook of the component's contexts, acting on their state. *)
Definition hook {C} (f : C -> result unit * C) : Client C unit :=
  fun _ s =>
    match f (context s) with
    | (o, c') => (o, {| page := page s; localStorage := localStorage s; location := location s;
                        console := console s; context := c'; db := db s |})
    end.

Section Page.
Context {bcrypt : Bcrypt} {C : Type}.

(** [updateUserData] of [useUserData] and [login] of [useAuth], which are
    not in the source tree: taken as parameters.  Each acts on the state of
    its context and returns or throws; neither touches the cells of the
    component, [localStorage] or the location. *)
Variable updateUserData : json -> C -> result unit * C.
Variable auth_login : option json -> C -> result unit * C.

(** [fetch(url, { method: "POST", body })] followed by [response.json()].
    [server.js] mounts [routes/authRoutes.js] at [/api/auth]; a request that
    does not get through is a rejected promise. *)
Definition fetch (e : Auth.endpoint) (b : Req.body) : Client C response :=
  fun v s =>
    match network_error v with
    | Some error => (Thrown error, s)
    | None =>
        let handler := match e with Auth.Register => register b | Auth.Login => login b end in
        match handler (server v) (db s) with
        | (o, db') =>
            (match o with Ok r => Returned r | Throw m => Thrown (JString m) end,
             {| page := page s; localStorage := localStorage s; location := location s;
                console := console s; context := context s; db := db' |})
        end
    end.

(** The body of the [try] of [handleSubmit], over the cells [s0] the
    handler was created with. *)
Definition handleSubmit_try (s0 : Auth.state) : Client C unit :=
  (const response := await (if Auth.isSignUp s0
                            then fetch Auth.Register (Auth.body_sent s0)
                            else fetch Auth.Login (Auth.body_sent s0)) in
   let data := body response in
   if negb (Auth.ok response) then throw (js_or (member "message" data) "Auth failed")
   else
     const _ := await (match member "token" data with
                       | Some token =>
                           if js_truthy (Some token) then localStorage_setItem "token" token
                           else cret tt
                       | None => cret tt
                       end) in
     const _ := await hook (updateUserData
                  (JObject [("name", js_or (member "user" data ≫= member "name") (Auth.name s0));
                            ("email", js_or (member "user" data ≫= member "email") (Auth.email s0));
                            ("course", js_or (member "user" data ≫= member "collegeName")
                                         (Auth.collegeName s0))])) in
     const _ := await hook (auth_login (member "user" data)) in
     let role := if js_truthy (member "user" data ≫= member "role")
                 then member "user" data ≫= member "role"
                 else (fun r => JString (Auth.role_string r)) <$> Auth.selectedRole s0 in
     navigate (Auth.panelPath role))%client.

(** [handleSubmit]: [setIsLoading(true)], the [try] with its [catch]
    ([console.error]), and [setIsLoading(false)] in the [finally]. *)
Definition handleSubmit : Client C unit :=
  fun v s =>
    (const _ := await set_page (Auth.setIsLoading true) in
     finally (ctry_catch (handleSubmit_try (page s)) console_error)
             (set_page (Auth.setIsLoading false)))%client v s.
End Page.

(** The answer of the server to what the page submits: [register] in
    sign-up mode, [login] otherwise. *)
Definition served {bcrypt : Bcrypt} (p : Auth.state) : Async response :=
  if Auth.isSignUp p then register (Auth.body_sent p) else login (Auth.body_sent p).

(** The system with its page cells changed by [f]. *)
Definition on_page {C} (f : Auth.state -> Auth.state) (s : system C) : system C :=
  {| page := f (page s); localStorage := localStorage s; location := location s;
     console := console s; context := context s; db := db s |}.

(** The computation [m] neither reads nor undoes the change [f] of the
    page cells: run after [f], it does what it does without, and [f] is
    still in place. *)
Definition page_independent {C A} (f : Auth.state -> Auth.state) (m : Client C A) : Prop :=
  ∀ v s, m v (on_page f s) = ((m v s).1, on_page f (m v s).2).

(** A hook that returns and leaves its context alone, for concrete runs. *)
Definition no_hook {A} (_ : A) (c : unit) : result unit * unit := (Returned tt, c).

(** A submission that gets through, served with the store reachable. *)
Definition online (w : World) : visit := {| network_error := None; server := w |}.

(** The sign-up form of the scenario, filled in. *)
Definition alice_form (signUp : bool) (r : option Auth.role) : Auth.state :=
  {| Auth.email := "a@x.com"; Auth.password := "pw1"; Auth.confirmPassword := "pw1";
     Auth.name := "Alice"; Auth.collegeName := "X College";
     Auth.showPassword := false; Auth.showConfirmPassword := false; Auth.isLoading := false;
     Auth.formStep := 1; Auth.showMobileForm := false; Auth.selectedRole := r;
     Auth.showRoleSelection := false; Auth.isSignUp := signUp |}.

Definition browser (p : Auth.state) (st : Store) : system unit :=
  {| page := p; localStorage := ∅; location := None; console := []; context := tt; db := st |}.

(** A request served while the store is down: both operations fail with
    the error [e]. *)
Definition outage (e : string) : World :=
  {| clock := 3000; objectid := 9; salt := "s3"; findOne_fault := Some e; save_fault := Some e |}.

(** ** Lookup *)

Section Lookup.
Implicit Types (st : Store) (u : User.t).

Lemma path_email u : User.path "email" u = Some (User.email u).
Proof. reflexivity. Qed.

Lemma path_role u : User.path "role" u = Some (User.role u).
Proof. reflexivity. Qed.

Lemma matches_email e u : User.matches [("email", e)] u ↔ User.email u = e.
Proof.
  unfold User.matches; cbn. rewrite path_email.
  rewrite andb_True, bool_decide_spec.
  split; [intros [[= ?] _]; done | intros ->; done].
Qed.

Lemma matches_email_role e r u :
  User.matches [("email", e); ("role", r)] u ↔ User.email u = e ∧ User.role u = r.
Proof.
  unfold User.matches; cbn. rewrite path_email, path_role.
  rewrite !andb_True, !bool_decide_spec.
  split; [intros ([= ?] & [= ?] & _); done | intros [-> ->]; done].
Qed.

Lemma head_filter_None (P : User.t → Prop) `{!∀ u, Decision (P u)} st :
  head (filter P st) = None ↔ ∀ u, u ∈ st → ¬ P u.
Proof.
  rewrite head_None. split.
  - intros Hnil u Hin HP. eapply filter_nil_not_elem_of; eauto.
  - intros Hall. induction st as [|v st IH]; [done|].
    rewrite filter_cons_False; [|apply Hall; left].
    apply IH. intros u Hin. apply Hall. by right.
Qed.

Lemma head_filter_Some (P : User.t → Prop) `{!∀ u, Decision (P u)} st u :
  head (filter P st) = Some u → u ∈ st ∧ P u.
Proof.
  intros Hhd. assert (u ∈ filter P st) as Hin.
  { destruct (filter P st); simplify_eq/=. left. }
  apply list_elem_of_filter in Hin. tauto.
Qed.

Lemma findOne_email_absent e st :
  head (filter (fun u => User.matches [("email", e)] u) st) = None ↔ e ∉ User.email <$> st.
Proof.
  rewrite head_filter_None, list_elem_of_fmap. split.
  - intros Hall (u & -> & Hin). by apply (Hall u Hin), matches_email.
  - intros Hnot u Hin Hm%matches_email. apply Hnot. eauto.
Qed.

Lemma findOne_email_present e st u :
  head (filter (fun u => User.matches [("email", e)] u) st) = Some u → u ∈ st ∧ User.email u = e.
Proof. intros [? ?%matches_email]%head_filter_Some. done. Qed.

(** A lookup by email and role that finds nothing finds nothing in a
    store without the email. *)
Lemma findOne_email_role_absent e r st :
  e ∉ User.email <$> st →
  head (filter (fun u => User.matches [("email", e); ("role", r)] u) st) = None.
Proof.
  intros Hnot. apply head_filter_None. intros u Hin [He _]%matches_email_role.
  apply Hnot, list_elem_of_fmap. eauto.
Qed.

(** With unique emails, a lookup under another role than the stored one
    finds nothing. *)
Lemma findOne_other_role st u r :
  emails_unique st → u ∈ st → r ≠ User.role u →
  head (filter (fun v => User.matches [("email", User.email u); ("role", r)] v) st) = None.
Proof.
  intros Hnd Hin Hr. apply head_filter_None. intros v Hv [He Hrole]%matches_email_role.
  assert (v = u) as ->; [|congruence].
  unfold emails_unique in Hnd.
  apply list_elem_of_lookup in Hv as [i Hi], Hin as [j Hj].
  assert (i = j) as ->.
  { eapply NoDup_lookup; [exact Hnd| |]; rewrite list_lookup_fmap.
    - by rewrite Hi.
    - rewrite Hj. cbn. by rewrite He. }
  congruence.
Qed.

(** The account just inserted is the one a lookup by its email and role
    finds. *)
Lemma findOne_inserted st u :
  User.email u ∉ User.email <$> st →
  head (filter (fun v => User.matches [("email", User.email u); ("role", User.role u)] v)
          (st ++ [u])%list) = Some u.
Proof.
  intros Hnot. rewrite filter_app.
  apply (findOne_email_role_absent _ (User.role u)), head_None in Hnot. rewrite Hnot.
  rewrite filter_cons_True; [done|]. by apply matches_email_role.
Qed.

(** An unknown role is the role of no stored account. *)
Lemma findOne_unknown_role st e r :
  roles_valid st → r ∉ User.role_enum →
  head (filter (fun v => User.matches [("email", e); ("role", r)] v) st) = None.
Proof.
  intros Hvalid Hr. apply head_filter_None. intros v Hv [_ <-]%matches_email_role.
  apply Hr. unfold roles_valid in Hvalid. rewrite Forall_forall in Hvalid. by apply Hvalid.
Qed.
End Lookup.

(** ** Running the handlers *)

(** Unfolds one handler down to the store operations. *)
Ltac run_handler :=
  unfold register, login, try_catch, register_try, login_try, server_error, bind, ret,
    User.findOne, User.new, User.save, hash, compare, Date_now, request;
  cbn [Req.email Req.password Req.role str default from_option
       User._id User.email User.password User.role].

Section Runs.
Context {bcrypt : Bcrypt}.
Implicit Types (req : Req.body) (w : World) (st : Store) (u : User.t) (r : response).

Lemma truthy_Some s : s ≠ "" → truthy (Some s) = true.
Proof. intros Hs. unfold truthy. by rewrite bool_decide_eq_false_2. Qed.

Lemma truthy_str x : truthy x = true → x = Some (str x) ∧ str x ≠ "".
Proof.
  destruct x as [s|]; [|done]. cbn. intros Hs%negb_true_iff%bool_decide_eq_false. done.
Qed.


Lemma fields_check req :
  negb (truthy (Req.email req)) || negb (truthy (Req.password req))
  || negb (truthy (Req.role req)) = negb (fields_present req).
Proof. unfold fields_present. by rewrite !negb_andb. Qed.

Lemma fields_present_request email password role :
  email ≠ "" → password ≠ "" → role ≠ "" → fields_present (request email password role) = true.
Proof. intros. unfold fields_present, request; cbn [Req.email Req.password Req.role]. by rewrite !truthy_Some. Qed.

Lemma register_missing req w st :
  fields_present req = false → register req w st = (Ok InvalidInput_fields, st).
Proof. intros Hf. run_handler. by rewrite fields_check, Hf. Qed.

Lemma register_bad_role req w st :
  fields_present req = true → str (Req.role req) ∉ User.role_enum →
  register req w st = (Ok InvalidInput_role, st).
Proof.
  intros Hf Hr. run_handler. rewrite fields_check, Hf. cbn [negb].
  by rewrite bool_decide_eq_false_2.
Qed.
Lemma register_find_fault req w st e :
  fields_present req = true → str (Req.role req) ∈ User.role_enum →
  findOne_fault w = Some e →
  register req w st = (Ok (StoreUnavailable e), st).
Proof.
  intros Hf Hr He. run_handler. rewrite fields_check, Hf. cbn [negb].
  rewrite bool_decide_eq_true_2 by done. cbn [negb]. by rewrite He.
Qed.

Lemma register_duplicate req w st u :
  fields_present req = true → str (Req.role req) ∈ User.role_enum →
  findOne_fault w = None →
  u ∈ st → User.email u = str (Req.email req) →
  register req w st = (Ok DuplicateEmail, st).
Proof.
  intros Hf Hr He Hin Hu. run_handler. rewrite fields_check, Hf. cbn [negb].
  rewrite bool_decide_eq_true_2 by done. cbn [negb]. rewrite He.
  destruct (head _) as [v|] eqn:Hhd; [done|].
  apply findOne_email_absent in Hhd. destruct Hhd.
  rewrite <- Hu. by apply list_elem_of_fmap_2.
Qed.


(** Past the uniqueness check, the answer is decided by [save]. *)
Lemma register_save req w st :
  fields_present req = true → str (Req.role req) ∈ User.role_enum →
  findOne_fault w = None → str (Req.email req) ∉ User.email <$> st →
  register req w st =
    match User.save (drafted req w) w st with
    | (Ok u, st') => (Ok (registered (str (Req.role req)) u (clock w)), st')
    | (Throw e, st') => (Ok (StoreUnavailable e), st')
    end.
Proof.
  intros Hf Hr He Hnew. run_handler. rewrite fields_check, Hf. cbn [negb].
  rewrite bool_decide_eq_true_2 by done. cbn [negb]. rewrite He.
  apply findOne_email_absent in Hnew. rewrite Hnew.
  fold (drafted req w).
  destruct (save_fault w); [done|].
  destruct (negb (User.validate _)); [done|].
  destruct (_ || _); done.
Qed.

(** [save] inserts the stamped document at the end or throws and
    leaves the collection as it was. *)
Lemma save_inv u w st o st' :
  User.save u w st = (o, st') →
  (∃ e, o = Throw e ∧ st' = st) ∨
  (o = Ok (User.stamp (clock w) u) ∧ st' = (st ++ [User.stamp (clock w) u])%list ∧
         (User._id u ∉ User._id <$> st) ∧ (User.email u ∉ User.email <$> st) ∧
         User.role u ∈ User.role_enum).
Proof.
  unfold User.save. destruct (save_fault w) as [e|]; [intros [= <- <-]; eauto|].
  destruct (negb (User.validate u)) eqn:Hv; [intros [= <- <-]; eauto|].
  destruct (_ || _) eqn:Hdup; intros [= <- <-]; [eauto|].
  right. split; [done|]. split; [done|].
  apply orb_false_iff in Hdup as [Hid%bool_decide_eq_false Hem%bool_decide_eq_false].
  apply negb_false_iff in Hv. unfold User.validate in Hv.
  apply andb_true_iff in Hv as [_ Hrole%bool_decide_eq_true]. done.
Qed.

Lemma save_ok u w st :
  save_fault w = None → User.email u ≠ "" → User.password u ≠ "" →
  User.role u ∈ User.role_enum →
  User._id u ∉ User._id <$> st → User.email u ∉ User.email <$> st →
  User.save u w st =
    (Ok (User.stamp (clock w) u), (st ++ [User.stamp (clock w) u])%list).
Proof.
  intros Hs He Hp Hr Hid Hem. unfold User.save. rewrite Hs.
  assert (User.role u ≠ "") as Hr'.
  { intros Hrole. rewrite Hrole in Hr. unfold User.role_enum in Hr.
    rewrite !elem_of_cons, elem_of_nil in Hr. by destruct Hr as [|[|[|[|[]]]]]. }
  unfold User.validate.
  rewrite (bool_decide_eq_false_2 _ He), (bool_decide_eq_false_2 _ Hp),
    (bool_decide_eq_false_2 _ Hr'), (bool_decide_eq_true_2 _ Hr).
  rewrite (bool_decide_eq_false_2 _ Hid), (bool_decide_eq_false_2 _ Hem).
  reflexivity.
Qed.
Lemma login_missing req w st :
  fields_present req = false → login req w st = (Ok InvalidInput_fields, st).
Proof. intros Hf. run_handler. by rewrite fields_check, Hf. Qed.

Lemma login_find_fault req w st e :
  fields_present req = true → findOne_fault w = Some e →
  login req w st = (Ok (StoreUnavailable e), st).
Proof. intros Hf He. run_handler. rewrite fields_check, Hf. cbn [negb]. by rewrite He. Qed.

(** Past the first check, the answer is decided by the lookup and by
    [bcrypt.compare]; the role is not checked against the permitted
    ones. *)
Lemma login_lookup req w st :
  fields_present req = true → findOne_fault w = None →
  login req w st =
    match head (filter (fun u => User.matches [("email", str (Req.email req));
                                                ("role", str (Req.role req))] u) st) with
    | None => (Ok NotFoundForRole, st)
    | Some u =>
        if bcrypt_compare (str (Req.password req)) (User.password u)
        then (Ok (logged_in (str (Req.role req)) u (clock w)), st)
        else (Ok InvalidPassword, st)
    end.
Proof.
  intros Hf He. run_handler. rewrite fields_check, Hf. cbn [negb]. rewrite He.
  destruct (head _) as [u|]; [|done]. by destruct (bcrypt_compare _ _).
Qed.


(** [register] always answers, in one of the five ways above. *)
Lemma register_runs req w st :
  ∃ r st', register req w st = (Ok r, st') ∧ registers req w st r st'.
Proof.
  destruct (fields_present req) eqn:Hf.
  2: { eexists _, _; split; [by apply register_missing|by constructor]. }
  destruct (decide (str (Req.role req) ∈ User.role_enum)) as [Hr|Hr].
  2: { eexists _, _; split; [by apply register_bad_role|by constructor]. }
  destruct (findOne_fault w) as [e|] eqn:He.
  { eexists _, _; split; [by eapply register_find_fault|by constructor]. }
  destruct (head (filter (fun u => User.matches [("email", str (Req.email req))] u) st))
    as [u|] eqn:Hhd.
  { apply findOne_email_present in Hhd as [Hin Hu].
    eexists _, _; split; [by eapply register_duplicate|by econstructor]. }
  apply findOne_email_absent in Hhd.
  rewrite register_save by done.
  destruct (User.save (drafted req w) w st) as [o st'] eqn:Hsave.
  apply save_inv in Hsave as [(e & -> & ->)|(-> & -> & Hid & Hem & _)].
  - eexists _, _; split; [done|by constructor].
  - eexists _, _; split; [done|by constructor].
Qed.


(** [login] always answers, in one of the five ways above, and never
    writes. *)
Lemma login_runs req w st :
  ∃ r, login req w st = (Ok r, st) ∧ logs_in req w st r.
Proof.
  destruct (fields_present req) eqn:Hf.
  2: { eexists; split; [by apply login_missing|by constructor]. }
  destruct (findOne_fault w) as [e|] eqn:He.
  { eexists; split; [by eapply login_find_fault|by econstructor]. }
  rewrite login_lookup by done.
  destruct (head _) as [u|] eqn:Hhd.
  - apply head_filter_Some in Hhd as [Hin [Hu Hr]%matches_email_role].
    destruct (bcrypt_compare _ _) eqn:Hc; eexists; (split; [done|]).
    + by eapply logs_in_ok.
    + by eapply logs_in_bad_password.
  - eexists; split; [done|]. apply logs_in_not_found; [done|].
    intros u Hin Hm. eapply head_filter_None in Hhd; [|exact Hin].
    by apply Hhd, matches_email_role.
Qed.
End Runs.

(** ** Properties of the specification *)

Section Properties.
Context {bcrypt : Bcrypt}.
Implicit Types (req : Req.body) (w : World) (st : Store) (u : User.t) (r : response).
Implicit Types (email password role : string).

Lemma role_enum_nonempty role : role ∈ User.role_enum → role ≠ "".
Proof.
  intros Hr ->. unfold User.role_enum in Hr.
  rewrite !elem_of_cons, elem_of_nil in Hr. by destruct Hr as [|[|[|[|[]]]]].
Qed.

(** The run of [register] that creates the account. *)
Lemma register_created email password role w st :
  email ≠ "" → password ≠ "" → role ∈ User.role_enum →
  email ∉ User.email <$> st → objectid w ∉ User._id <$> st →
  findOne_fault w = None → save_fault w = None →
  bcrypt_hash password 10 (salt w) ≠ "" →
  let u := User.stamp (clock w) (drafted (request email password role) w) in
  register (request email password role) w st = (Ok (registered role u (clock w)), (st ++ [u])%list).
Proof.
  intros He Hp Hr Hnew Hid Hfind Hsave Hdigest u.
  rewrite register_save; [|by apply fields_present_request, role_enum_nonempty|done..].
  by rewrite save_ok.
Qed.

(** C1. For a valid [(email, password, role)] and a store without that
    email, [register] answers 201 and a following [login] with the same
    fields answers 200; both answers carry a token, and both tokens have
    the id of the stored account as their subject.  The store is reachable
    in both requests, the ObjectId drawn is new, and bcrypt accepts the
    password against the digest it has just made of it. *)
Theorem C1_register_then_authenticate email password role w1 w2 st :
  email ≠ "" → password ≠ "" → role ∈ User.role_enum →
  email ∉ User.email <$> st → objectid w1 ∉ User._id <$> st →
  findOne_fault w1 = None → save_fault w1 = None → findOne_fault w2 = None →
  bcrypt_hash password 10 (salt w1) ≠ "" →
  bcrypt_compare password (bcrypt_hash password 10 (salt w1)) = true →
  ∃ r1 st1 r2 t1 t2 u,
    register (request email password role) w1 st = (Ok r1, st1) ∧ status r1 = 201 ∧
    login (request email password role) w2 st1 = (Ok r2, st1) ∧ status r2 = 200 ∧
    token_of r1 = Some t1 ∧ token_of r2 = Some t2 ∧
    u ∈ st1 ∧ User.email u = email ∧ User.role u = role ∧
    jwt.id (jwt.claims t1) = User._id u ∧ jwt.id (jwt.claims t2) = User._id u.
Proof.
  intros He Hp Hr Hnew Hid Hfind1 Hsave1 Hfind2 Hdigest Hmatch.
  pose proof (role_enum_nonempty _ Hr) as Hr'.
  set (u := User.stamp (clock w1) (drafted (request email password role) w1)).
  exists (registered role u (clock w1)), (st ++ [u])%list, (logged_in role u (clock w2)).
  exists (generateToken (User._id u) (clock w1)), (generateToken (User._id u) (clock w2)), u.
  split; [by apply register_created|]. split; [done|].
  split.
  { rewrite login_lookup; [|by apply fields_present_request|done].
    change (str (Req.email (request email password role))) with (User.email u).
    change (str (Req.role (request email password role))) with (User.role u).
    rewrite findOne_inserted by done.
    change (bcrypt_compare _ _) with (bcrypt_compare password (bcrypt_hash password 10 (salt w1))).
    by rewrite Hmatch. }
  split; [done|]. split; [done|]. split; [done|].
  split; [apply elem_of_app; right; apply list_elem_of_singleton; done|done].
Qed.

(** C3. When the store holds an account with the email, [register] with
    that email, a password and any of the four roles answers "User
    already exists" and leaves the store as it was, whatever the role of
    the stored account. *)
Theorem C3_register_duplicate_email email password role w st u :
  u ∈ st → User.email u = email →
  email ≠ "" → password ≠ "" → role ∈ User.role_enum →
  findOne_fault w = None →
  register (request email password role) w st = (Ok DuplicateEmail, st).
Proof.
  intros Hin Hu He Hp Hr Hfind.
  eapply register_duplicate; [|done|done|exact Hin|done].
  by apply fields_present_request, role_enum_nonempty.
Qed.

(** C4. With unique emails, [login] with the email of a stored account and
    a role other than the stored one answers "User not found for this
    role", whatever the password; and that answer is the one given for an
    email no account has, so it does not tell the two apart. *)
Theorem C4_login_wrong_role password role w st u :
  emails_unique st → u ∈ st → role ≠ User.role u →
  User.email u ≠ "" → password ≠ "" → role ≠ "" →
  findOne_fault w = None →
  login (request (User.email u) password role) w st = (Ok NotFoundForRole, st) ∧
  ∀ st', User.email u ∉ User.email <$> st' →
         (login (request (User.email u) password role) w st').1
         = (login (request (User.email u) password role) w st).1.
Proof.
  intros Huniq Hin Hrole He Hp Hr Hfind.
  assert (login (request (User.email u) password role) w st = (Ok NotFoundForRole, st)) as Hst.
  { rewrite login_lookup; [|by apply fields_present_request|done].
    change (str (Req.email _)) with (User.email u). change (str (Req.role _)) with role.
    by rewrite findOne_other_role. }
  split; [done|]. intros st' Habsent. rewrite Hst.
  rewrite login_lookup; [|by apply fields_present_request|done].
  change (str (Req.email _)) with (User.email u). change (str (Req.role _)) with role.
  by rewrite findOne_email_role_absent.
Qed.

(** C10. [login] does not check the role against the four permitted ones.
    With the three fields present, whatever the role string, [login]
    passes the first check and reaches the lookup: it answers the
    driver's error when the store does not answer, and otherwise "User
    not found for this role", "Invalid password" or 200, never "All
    fields are required" or "Invalid role".  For a role outside the four,
    [register] answers "Invalid role", and [login] answers "User not
    found for this role" on a store whose roles are all among the four. *)
Theorem C10_login_unknown_role email password role w st :
  email ≠ "" → password ≠ "" → role ≠ "" →
  (∀ e, findOne_fault w = Some e →
        login (request email password role) w st = (Ok (StoreUnavailable e), st)) ∧
  (findOne_fault w = None →
   ∃ r, login (request email password role) w st = (Ok r, st) ∧
        (r = NotFoundForRole ∨ r = InvalidPassword ∨ status r = 200)) ∧
  (role ∉ User.role_enum →
   register (request email password role) w st = (Ok InvalidInput_role, st) ∧
   (findOne_fault w = None → roles_valid st →
    login (request email password role) w st = (Ok NotFoundForRole, st))).
Proof.
  intros He Hp Hr.
  pose proof (fields_present_request _ _ _ He Hp Hr) as Hf.
  split; [|split].
  - intros e Hfind. by apply login_find_fault.
  - intros Hfind. rewrite login_lookup by done.
    destruct (head _) as [u|]; [|by eauto].
    destruct (bcrypt_compare _ _); eauto.
  - intros Hunknown. split; [by apply register_bad_role|].
    intros Hfind Hvalid. rewrite login_lookup by done.
    change (str (Req.role _)) with role. by rewrite findOne_unknown_role.
Qed.

(** *** Tokens *)

Lemma token_of_bad_request message : token_of (bad_request message) = None.
Proof. reflexivity. Qed.

Lemma token_of_StoreUnavailable e : token_of (StoreUnavailable e) = None.
Proof. reflexivity. Qed.

Lemma token_of_registered role u now :
  token_of (registered role u now) = Some (generateToken (User._id u) now).
Proof. reflexivity. Qed.

Lemma token_of_logged_in role u now :
  token_of (logged_in role u now) = Some (generateToken (User._id u) now).
Proof. reflexivity. Qed.

(** What [generateToken] puts in a token, and when the verifier takes it. *)
Lemma generateToken_lifetime id T :
  let t := generateToken id T in
  jwt.id (jwt.claims t) = id ∧ jwt.iat (jwt.claims t) = T ∧
  jwt.exp (jwt.claims t) = jwt.iat (jwt.claims t) + 7 * 24 * 60 * 60 ∧
  (∀ now, T <= now < T + 7 * 24 * 60 * 60 → jwt.verify t "your_jwt_secret" now = inl id) ∧
  (∀ now, T + 7 * 24 * 60 * 60 <= now → jwt.verify t "your_jwt_secret" now = inr jwt.InvalidToken).
Proof.
  cbn zeta. unfold generateToken, jwt.sign, jwt.verify, expiresIn_7d.
  cbn [jwt.claims jwt.sig jwt.id jwt.iat jwt.exp].
  rewrite (bool_decide_eq_true_2 _ eq_refl). cbn [negb].
  repeat split.
  - intros now Hnow. rewrite bool_decide_eq_false_2 by lia. done.
  - intros now Hnow. rewrite bool_decide_eq_true_2 by lia. done.
Qed.

(** The token of an answer of [register] or [login]: it is made at the
    time of the request for the account of that request, the one
    [register] has just inserted or the one the lookup of [login] has
    returned, which is also the account the answer hands out. *)
Lemma issued_token req w st r st' t :
  register req w st = (Ok r, st') ∨ login req w st = (Ok r, st') →
  token_of r = Some t →
  ∃ u, u ∈ st' ∧
       User.email u = str (Req.email req) ∧ User.role u = str (Req.role req) ∧
       member "user" (body r) = Some (account_view u) ∧
       ((register req w st = (Ok r, st') ∧ st' = (st ++ [u])%list) ∨
        (login req w st = (Ok r, st') ∧ st' = st ∧
         head (filter (fun v => User.matches [("email", str (Req.email req));
                                               ("role", str (Req.role req))] v) st)
         = Some u)) ∧
       t = generateToken (User._id u) (clock w).
Proof.
  intros [Hrun|Hrun] Ht.
  - destruct (register_runs req w st) as (r0 & st0 & Heq & Hcase).
    pose proof Hrun as Hrun'. rewrite Heq in Hrun'. injection Hrun' as <- <-.
    inversion Hcase; subst; try discriminate Ht.
    rewrite token_of_registered in Ht. injection Ht as <-.
    exists (User.stamp (clock w) (drafted req w)).
    split; [apply elem_of_app; right; by apply list_elem_of_singleton|].
    split; [done|]. split; [done|]. split; [done|]. split; [|done].
    left. by rewrite <- Heq.
  - destruct (fields_present req) eqn:Hf.
    2: { rewrite login_missing in Hrun by done. injection Hrun as <- <-. discriminate Ht. }
    destruct (findOne_fault w) as [e|] eqn:He.
    { rewrite (login_find_fault _ _ _ e) in Hrun by done. injection Hrun as <- <-.
      discriminate Ht. }
    pose proof Hrun as Hrun'. rewrite login_lookup in Hrun' by done.
    destruct (head _) as [u|] eqn:Hhd.
    2: { injection Hrun' as <- <-. discriminate Ht. }
    destruct (bcrypt_compare _ _).
    2: { injection Hrun' as <- <-. discriminate Ht. }
    injection Hrun' as <- <-.
    rewrite token_of_logged_in in Ht. injection Ht as <-.
    pose proof Hhd as [Hin [Hemail Hrole]%matches_email_role]%head_filter_Some.
    exists u. split; [done|]. split; [done|]. split; [done|]. split; [done|].
    split; [|done]. right. done.
Qed.

(** C5. Every token [register] or [login] hands out has as its subject the
    id of the account of the request: the document [register] has just
    appended to the store, or the document the lookup of [login] has
    returned, in both cases the account with the email and role of the
    request whose id, email and role the answer carries.  The token has
    the time of the request as issued-at and issued-at plus seven days as
    expiry; the verifier accepts it, returning that id, at every time from
    issuance up to but excluding expiry, and rejects it at expiry and at
    every time after. *)
Theorem C5_token_lifetime req w st r st' t :
  register req w st = (Ok r, st') ∨ login req w st = (Ok r, st') →
  token_of r = Some t →
  (∃ u, u ∈ st' ∧
        User.email u = str (Req.email req) ∧ User.role u = str (Req.role req) ∧
        member "user" (body r) = Some (account_view u) ∧
        ((register req w st = (Ok r, st') ∧ st' = (st ++ [u])%list) ∨
         (login req w st = (Ok r, st') ∧ st' = st ∧
          head (filter (fun v => User.matches [("email", str (Req.email req));
                                                ("role", str (Req.role req))] v) st)
          = Some u)) ∧
        jwt.id (jwt.claims t) = User._id u) ∧
  jwt.iat (jwt.claims t) = clock w ∧
  jwt.exp (jwt.claims t) = jwt.iat (jwt.claims t) + 7 * 24 * 60 * 60 ∧
  (∀ now, clock w <= now < clock w + 7 * 24 * 60 * 60 →
          jwt.verify t "your_jwt_secret" now = inl (jwt.id (jwt.claims t))) ∧
  (∀ now, clock w + 7 * 24 * 60 * 60 <= now →
          jwt.verify t "your_jwt_secret" now = inr jwt.InvalidToken).
Proof.
  intros Hrun Ht.
  destruct (issued_token _ _ _ _ _ _ Hrun Ht) as (u & Hin & Hemail & Hrole & Huser & Hwhich & ->).
  destruct (generateToken_lifetime (User._id u) (clock w)) as (Hid & Hiat & Hexp & Hacc & Hrej).
  split; [by exists u|]. rewrite Hid. done.
Qed.

(** C8. [register] always answers.  An answer other than 201 carries no
    token; an answer that carries a token is the 201 one, and the
    subject of its token is the id of an account that is in the store
    when the answer is given. *)
Theorem C8_register_token_after_persist req w st :
  ∃ r st', register req w st = (Ok r, st') ∧
    (status r ≠ 201 → token_of r = None) ∧
    (∀ t, token_of r = Some t →
          status r = 201 ∧ ∃ u, u ∈ st' ∧ User._id u = jwt.id (jwt.claims t)).
Proof.
  destruct (register_runs req w st) as (r & st' & Heq & Hcase).
  exists r, st'. split; [done|].
  inversion Hcase; subst; (split; [done|]); intros t Ht; try discriminate Ht.
  rewrite token_of_registered in Ht. injection Ht as <-.
  split; [done|]. exists (User.stamp (clock w) (drafted req w)). split; [|reflexivity].
  apply elem_of_app; right. by apply list_elem_of_singleton.
Qed.

(** *** Invariants of the store *)

Lemma emails_unique_snoc st u :
  emails_unique st → User.email u ∉ User.email <$> st → emails_unique (st ++ [u]).
Proof.
  unfold emails_unique. intros Huniq Hnew. rewrite fmap_app. apply NoDup_app.
  split; [done|]. split; [|apply NoDup_singleton].
  intros e He Habs. apply list_elem_of_singleton in Habs. by subst e.
Qed.

(** C9. [register], the one handler that writes, keeps emails unique:
    from a store in which no two accounts share an email it leads to such
    a store, whatever the request, the roles and the faults. *)
Theorem C9_register_preserves_unique_emails req w st :
  emails_unique st → emails_unique (register req w st).2.
Proof.
  intros Huniq. destruct (register_runs req w st) as (r & st' & -> & Hcase). cbn.
  inversion Hcase; subst; try done.
  by apply emails_unique_snoc.
Qed.

Lemma login_preserves_store req w st : (login req w st).2 = st.
Proof. by destruct (login_runs req w st) as (r & -> & _). Qed.

Lemma register_preserves_roles_valid req w st :
  roles_valid st → roles_valid (register req w st).2.
Proof.
  intros Hvalid. destruct (register_runs req w st) as (r & st' & -> & Hcase). cbn.
  inversion Hcase; subst; try done.
  apply Forall_app. split; [done|]. by apply Forall_singleton.
Qed.

(** Both invariants hold of every store the handlers lead to. *)
Lemma reachable_invariants st : reachable st → emails_unique st ∧ roles_valid st.
Proof.
  induction 1 as [|req w st _ [IHe IHr]|req w st _ IH].
  - split; [apply NoDup_nil_2|apply Forall_nil_2].
  - split; [|by apply register_preserves_roles_valid].
    destruct (register_runs req w st) as (r & st' & -> & Hcase). cbn.
    inversion Hcase; subst; try done. by apply emails_unique_snoc.
  - by rewrite login_preserves_store.
Qed.
(** *** What the answers carry *)

Lemma all_keys_bad_request message : all_keys (body (bad_request message)) = ["message"].
Proof. reflexivity. Qed.

Lemma all_keys_StoreUnavailable e : all_keys (body (StoreUnavailable e)) = ["message"; "error"].
Proof. reflexivity. Qed.

Lemma all_keys_registered role u now :
  all_keys (body (registered role u now)) = ["message"; "token"; "user"; "id"; "email"; "role"].
Proof. reflexivity. Qed.

Lemma all_keys_logged_in role u now :
  all_keys (body (logged_in role u now)) = ["message"; "token"; "user"; "id"; "email"; "role"].
Proof. reflexivity. Qed.

Lemma returns_account_view role u now :
  returns_account ["id"; "email"; "role"] (registered role u now) ∧
  returns_account ["id"; "email"; "role"] (logged_in role u now).
Proof. split; by exists (account_view u). Qed.

(** The digest of the document has no part in the account handed out. *)
Lemma account_view_with_password digest u : account_view (with_password digest u) = account_view u.
Proof. reflexivity. Qed.

(** C6, as the handlers have it.  No answer of [register] or [login] has a
    member named [password], at any depth.  A 201 or 200 answer carries
    the account as an object with exactly the members [id], [email] and
    [role] (there is no [createdAt]), taken from an account of the store,
    and the same whatever digest that account holds. *)
Theorem C6_account_representation req w st r st' :
  register req w st = (Ok r, st') ∨ login req w st = (Ok r, st') →
  ("password" ∉ all_keys (body r)) ∧
  (status r = 201 ∨ status r = 200 →
   returns_account ["id"; "email"; "role"] r ∧
   ∃ u, u ∈ st' ∧ member "user" (body r) = Some (account_view u) ∧
        ∀ digest, account_view (with_password digest u) = account_view u).
Proof.
  assert (∀ l : list string, bool_decide ("password" ∈ l) = false → "password" ∉ l) as Hno.
  { intros l Hl. by apply bool_decide_eq_false in Hl. }
  intros [Hrun|Hrun].
  - destruct (register_runs req w st) as (r0 & st0 & Heq & Hcase).
    rewrite Heq in Hrun. injection Hrun as <- <-.
    inversion Hcase; subst;
      (split; [by apply Hno|]); try (by intros [[=]|[=]]).
    intros _. split; [apply returns_account_view|].
    exists (User.stamp (clock w) (drafted req w)). split; [|done].
    apply elem_of_app; right. by apply list_elem_of_singleton.
  - destruct (login_runs req w st) as (r0 & Heq & Hcase).
    rewrite Heq in Hrun. injection Hrun as <- <-.
    inversion Hcase; subst;
      (split; [by apply Hno|]); try (by intros [[=]|[=]]).
    intros _. split; [apply returns_account_view|]. by exists u.
Qed.

(** C7.  The key [generateToken] signs with is the string written in
    [authRoutes.js], at every issuance and whatever the process was
    configured with.  In a process started with another [JWT_SECRET], the
    helper of the documentation signs with the configured key; the token
    of [generateToken] is signed with the written one and does not verify
    under the configured key. *)
Theorem C7_signing_key_is_fixed_in_source :
  (∀ id now, jwt.key_of (generateToken id now) = "your_jwt_secret") ∧
  let env : gmap string string := {[ "JWT_SECRET" := "configured-at-startup" ]} in
  jwt.key_of (generateToken_documented env 7 1000) = "configured-at-startup" ∧
  jwt.verify (generateToken_documented env 7 1000) "configured-at-startup" 1000 = inl 7%N ∧
  jwt.key_of (generateToken 7 1000) = "your_jwt_secret" ∧
  jwt.verify (generateToken 7 1000) "configured-at-startup" 1000 = inr jwt.InvalidToken.
Proof. split; [done|]. by vm_compute. Qed.
End Properties.

(** ** The properties on concrete requests *)


(** Decides a closed decidable proposition by evaluation. *)
Ltac by_evaluation := apply (bool_decide_unpack _); vm_compute; exact I.

Lemma C1_register_then_authenticate_witness :
  ∃ r1 st1 r2 t1 t2 u,
    register (bcrypt:=demo_bcrypt) (request "a@x.com" "pw1" "student") (world 1000 7 "s1") []
    = (Ok r1, st1) ∧ status r1 = 201 ∧
    login (bcrypt:=demo_bcrypt) (request "a@x.com" "pw1" "student") (world 2000 8 "s2") st1
    = (Ok r2, st1) ∧ status r2 = 200 ∧
    token_of r1 = Some t1 ∧ token_of r2 = Some t2 ∧
    u ∈ st1 ∧ User.email u = "a@x.com" ∧ User.role u = "student" ∧
    jwt.id (jwt.claims t1) = User._id u ∧ jwt.id (jwt.claims t2) = User._id u.
Proof.
  apply (C1_register_then_authenticate (bcrypt:=demo_bcrypt) "a@x.com" "pw1" "student"
           (world 1000 7 "s1") (world 2000 8 "s2") []);
    solve [reflexivity | by_evaluation].
Defined.

Lemma C3_register_duplicate_email_witness :
  register (bcrypt:=demo_bcrypt) (request "a@x.com" "pw2" "teacher") (world 3000 9 "s3") [alice]
  = (Ok DuplicateEmail, [alice]).
Proof.
  apply (C3_register_duplicate_email (bcrypt:=demo_bcrypt) "a@x.com" "pw2" "teacher"
           (world 3000 9 "s3") [alice] alice);
    solve [reflexivity | by_evaluation].
Defined.

Lemma C4_login_wrong_role_witness :
  login (bcrypt:=demo_bcrypt) (request "a@x.com" "pw1" "teacher") (world 2000 8 "s2") [alice]
  = (Ok NotFoundForRole, [alice]) ∧
  ∀ st', "a@x.com" ∉ User.email <$> st' →
         (login (bcrypt:=demo_bcrypt) (request "a@x.com" "pw1" "teacher") (world 2000 8 "s2") st').1
         = (login (bcrypt:=demo_bcrypt) (request "a@x.com" "pw1" "teacher") (world 2000 8 "s2")
              [alice]).1.
Proof.
  apply (C4_login_wrong_role (bcrypt:=demo_bcrypt) "pw1" "teacher" (world 2000 8 "s2") [alice] alice);
    solve [reflexivity | by_evaluation].
Defined.

Lemma C5_token_lifetime_witness :
  (∃ u, u ∈ [alice] ∧
        User.email u = str (Req.email (request "a@x.com" "pw1" "student")) ∧
        User.role u = str (Req.role (request "a@x.com" "pw1" "student")) ∧
        member "user" (body (logged_in "student" alice 2000)) = Some (account_view u) ∧
        ((register (bcrypt:=demo_bcrypt) (request "a@x.com" "pw1" "student") (world 2000 8 "s2")
            [alice] = (Ok (logged_in "student" alice 2000), [alice]) ∧
          [alice] = ([alice] ++ [u])%list) ∨
         (login (bcrypt:=demo_bcrypt) (request "a@x.com" "pw1" "student") (world 2000 8 "s2")
            [alice] = (Ok (logged_in "student" alice 2000), [alice]) ∧
          [alice] = [alice] ∧
          head (filter (fun v => User.matches
                                   [("email", str (Req.email (request "a@x.com" "pw1" "student")));
                                    ("role", str (Req.role (request "a@x.com" "pw1" "student")))] v)
                  [alice])
          = Some u)) ∧
        jwt.id (jwt.claims (generateToken 7 2000)) = User._id u) ∧
  jwt.iat (jwt.claims (generateToken 7 2000)) = clock (world 2000 8 "s2") ∧
  jwt.exp (jwt.claims (generateToken 7 2000))
  = jwt.iat (jwt.claims (generateToken 7 2000)) + 7 * 24 * 60 * 60 ∧
  (∀ now, clock (world 2000 8 "s2") <= now < clock (world 2000 8 "s2") + 7 * 24 * 60 * 60 →
          jwt.verify (generateToken 7 2000) "your_jwt_secret" now
          = inl (jwt.id (jwt.claims (generateToken 7 2000)))) ∧
  (∀ now, clock (world 2000 8 "s2") + 7 * 24 * 60 * 60 <= now →
          jwt.verify (generateToken 7 2000) "your_jwt_secret" now = inr jwt.InvalidToken).
Proof.
  apply (C5_token_lifetime (bcrypt:=demo_bcrypt) (request "a@x.com" "pw1" "student")
           (world 2000 8 "s2") [alice] (logged_in "student" alice 2000) [alice]
           (generateToken 7 2000));
    [right; reflexivity | reflexivity].
Defined.

(** C6, as the claim has it, fails on the 201 answer of [register]: the
    account it carries has no [createdAt]. *)
Lemma C6_counterexample :
  ∃ r st',
    register (bcrypt:=demo_bcrypt) (request "a@x.com" "pw1" "student") (world 1000 7 "s1") []
    = (Ok r, st') ∧
    status r = 201 ∧
    ¬ returns_account ["id"; "email"; "role"; "createdAt"] r.
Proof.
  exists (registered "student" alice 1000), [alice].
  split; [reflexivity|]. split; [reflexivity|].
  intros (j & Hj & Hperm). vm_compute in Hj. injection Hj as <-.
  apply Permutation_length in Hperm. discriminate Hperm.
Qed.

Lemma C6_account_representation_witness :
  ("password" ∉ all_keys (body (logged_in "student" alice 2000))) ∧
  (status (logged_in "student" alice 2000) = 201 ∨ status (logged_in "student" alice 2000) = 200 →
   returns_account ["id"; "email"; "role"] (logged_in "student" alice 2000) ∧
   ∃ u, u ∈ [alice] ∧ member "user" (body (logged_in "student" alice 2000)) = Some (account_view u) ∧
        ∀ digest, account_view (with_password digest u) = account_view u).
Proof.
  apply (C6_account_representation (bcrypt:=demo_bcrypt) (request "a@x.com" "pw1" "student")
           (world 2000 8 "s2") [alice] (logged_in "student" alice 2000) [alice]).
  right; reflexivity.
Defined.

Lemma C9_register_preserves_unique_emails_witness :
  emails_unique
    (register (bcrypt:=demo_bcrypt) (request "b@x.com" "pw2" "parent") (world 3000 9 "s3") [alice]).2.
Proof.
  apply (C9_register_preserves_unique_emails (bcrypt:=demo_bcrypt)).
  by_evaluation.
Defined.

Lemma C10_login_unknown_role_witness :
  (∀ e, findOne_fault (world 2000 8 "s2") = Some e →
        login (bcrypt:=demo_bcrypt) (request "a@x.com" "pw1" "janitor") (world 2000 8 "s2") [alice]
        = (Ok (StoreUnavailable e), [alice])) ∧
  (findOne_fault (world 2000 8 "s2") = None →
   ∃ r, login (bcrypt:=demo_bcrypt) (request "a@x.com" "pw1" "janitor") (world 2000 8 "s2") [alice]
        = (Ok r, [alice]) ∧
        (r = NotFoundForRole ∨ r = InvalidPassword ∨ status r = 200)) ∧
  ("janitor" ∉ User.role_enum →
   register (bcrypt:=demo_bcrypt) (request "a@x.com" "pw1" "janitor") (world 2000 8 "s2") [alice]
   = (Ok InvalidInput_role, [alice]) ∧
   (findOne_fault (world 2000 8 "s2") = None → roles_valid [alice] →
    login (bcrypt:=demo_bcrypt) (request "a@x.com" "pw1" "janitor") (world 2000 8 "s2") [alice]
    = (Ok NotFoundForRole, [alice]))).
Proof.
  apply (C10_login_unknown_role (bcrypt:=demo_bcrypt) "a@x.com" "pw1" "janitor"
           (world 2000 8 "s2") [alice]);
    by_evaluation.
Defined.

(** The scenario of the specification, on the handlers. *)
Example scenario :
  let st1 := [alice] in
  register (bcrypt:=demo_bcrypt) (request "a@x.com" "pw1" "student") (world 1000 7 "s1") []
  = (Ok (registered "student" alice 1000), st1) ∧
  login (bcrypt:=demo_bcrypt) (request "a@x.com" "wrong" "student") (world 2000 8 "s2") st1
  = (Ok InvalidPassword, st1) ∧
  login (bcrypt:=demo_bcrypt) (request "a@x.com" "pw1" "teacher") (world 2000 8 "s2") st1
  = (Ok NotFoundForRole, st1) ∧
  login (bcrypt:=demo_bcrypt) (request "a@x.com" "pw1" "student") (world 2000 8 "s2") st1
  = (Ok (logged_in "student" alice 2000), st1).
Proof. by vm_compute. Qed.

(** The other routes file answers [register] with the whole document, the
    digest among its members. *)
Example part000_register_returns_the_digest :
  ∃ r, Part000.register (bcrypt:=demo_bcrypt) (request "a@x.com" "pw1" "student")
         (world 1000 7 "s1") [] = (Ok r, [alice]) ∧
       member "user" (body r) = Some (User.toJSON alice) ∧
       member "password" (User.toJSON alice) = Some (JString "s1pw1").
Proof. eexists. by vm_compute. Qed.

(** ** Further properties of [routes/authRoutes.js] *)

(** Membership in a list of numerals. *)
Ltac by_elem := cbn; rewrite !elem_of_cons; tauto.

Section Handlers.
Context {bcrypt : Bcrypt}.
Implicit Types (req : Req.body) (w : World) (st : Store) (u v : User.t) (r : response).
Implicit Types (email password role : string).



(** [register] writes exactly when it answers 201.  Then the store has
    gained one document at its end, holding the email and role of the
    request, the bcrypt digest (cost 10) of its password in place of the
    password, the ObjectId drawn and the time of the request; every other
    answer returns the store as it was. *)
Theorem register_writes_on_201_only req w st :
  ∃ r st', register req w st = (Ok r, st') ∧
    ((status r = 201 ∧
      ∃ u, st' = (st ++ [u])%list ∧
           User._id u = objectid w ∧
           User.email u = str (Req.email req) ∧
           User.role u = str (Req.role req) ∧
           User.password u = bcrypt_hash (str (Req.password req)) 10 (salt w) ∧
           User.createdAt u = Some (clock w) ∧ User.updatedAt u = Some (clock w)) ∨
     (status r ≠ 201 ∧ st' = st)).
Proof.
  destruct (register_runs req w st) as (r & st' & Heq & Hcase).
  exists r, st'. split; [done|].
  inversion Hcase; subst; try (by right).
  left. split; [done|]. by eexists.
Qed.

(** The answers of [register], as a client sees them: the status is 201,
    400 or 500, there is always a [message] string, and a token comes with
    201 and with nothing else. *)
Theorem register_answer_shape req w st :
  ∃ r st', register req w st = (Ok r, st') ∧
    status r ∈ [201; 400; 500] ∧
    (∃ m, member "message" (body r) = Some (JString m)) ∧
    (is_Some (token_of r) ↔ status r = 201).
Proof.
  destruct (register_runs req w st) as (r & st' & Heq & Hcase).
  exists r, st'. split; [done|].
  inversion Hcase; subst;
    (split; [by_elem|]); (split; [by eexists|]);
    (split; [intros [t Ht]; by try discriminate Ht|intros Hs; by try discriminate Hs]).
Qed.
(** The strings of a request that passes the first check. *)
Lemma fields_present_inv req :
  fields_present req = true →
  str (Req.email req) ≠ "" ∧ str (Req.password req) ≠ "" ∧ str (Req.role req) ≠ "".
Proof.
  unfold fields_present. intros [[He Hp]%andb_true_iff Hr]%andb_true_iff.
  apply truthy_str in He as [_ He], Hp as [_ Hp], Hr as [_ Hr]. done.
Qed.

(** With unique emails an account is determined by its email. *)
Lemma emails_unique_inj st u v :
  emails_unique st → u ∈ st → v ∈ st → User.email u = User.email v → u = v.
Proof.
  unfold emails_unique. intros Huniq [i Hi]%list_elem_of_lookup [j Hj]%list_elem_of_lookup He.
  assert (i = j) as ->; [|congruence].
  eapply NoDup_lookup; [exact Huniq| |]; rewrite list_lookup_fmap.
  - by rewrite Hi.
  - rewrite Hj. cbn. by rewrite He.
Qed.

(** With unique emails, the lookup by the email and role of a stored
    account finds that account. *)
Lemma findOne_stored st u :
  emails_unique st → u ∈ st →
  head (filter (fun v => User.matches [("email", User.email u); ("role", User.role u)] v) st)
  = Some u.
Proof.
  intros Huniq Hin.
  destruct (head _) as [v|] eqn:Hhd.
  - apply head_filter_Some in Hhd as [Hv [He _]%matches_email_role].
    f_equal. by eapply emails_unique_inj.
  - eapply head_filter_None in Hhd; [|exact Hin]. destruct Hhd. by apply matches_email_role.
Qed.

(** [login] with the email and role of a stored account, on a store with
    unique emails that answers the lookup: the answer follows
    [bcrypt.compare] of the password with the stored digest.  When it
    accepts, the answer is 200 with a token for that account and its id,
    email and role; when it rejects, the answer is "Invalid password", with
    no token.  The store is returned as it was in both cases. *)
Theorem login_stored_account password w st u :
  emails_unique st → u ∈ st →
  User.email u ≠ "" → password ≠ "" → User.role u ≠ "" →
  findOne_fault w = None →
  (bcrypt_compare password (User.password u) = true →
   login (request (User.email u) password (User.role u)) w st
   = (Ok (logged_in (User.role u) u (clock w)), st)) ∧
  (bcrypt_compare password (User.password u) = false →
   login (request (User.email u) password (User.role u)) w st = (Ok InvalidPassword, st) ∧
   token_of InvalidPassword = None).
Proof.
  intros Huniq Hin He Hp Hr Hfind.
  assert (login (request (User.email u) password (User.role u)) w st
          = if bcrypt_compare password (User.password u)
            then (Ok (logged_in (User.role u) u (clock w)), st)
            else (Ok InvalidPassword, st)) as ->.
  { rewrite login_lookup; [|by apply fields_present_request|done].
    change (str (Req.email _)) with (User.email u).
    change (str (Req.role _)) with (User.role u).
    by rewrite findOne_stored. }
  split; intros ->; done.
Qed.

(** [login] with an email no account has answers "User not found for this
    role", for every password and role; in particular on the empty store. *)
Theorem login_unknown_email email password role w st :
  email ≠ "" → password ≠ "" → role ≠ "" →
  findOne_fault w = None → email ∉ User.email <$> st →
  login (request email password role) w st = (Ok NotFoundForRole, st).
Proof.
  intros He Hp Hr Hfind Habsent.
  rewrite login_lookup; [|by apply fields_present_request|done].
  change (str (Req.email _)) with email. change (str (Req.role _)) with role.
  by rewrite findOne_email_role_absent.
Qed.

(** [login] does not hand out a token on its own authority.  For a request
    whose email, password and role are strings (or missing), whatever the
    store and the faults: an answer with a token is a 200 answer, the
    token is the one made for a stored account that has the email and the
    role of the request, bcrypt has accepted the password of the request
    against that account's digest, and the store is unchanged. *)
Theorem login_token_sound req w st r st' t :
  login req w st = (Ok r, st') → token_of r = Some t →
  status r = 200 ∧ st' = st ∧
  ∃ u, u ∈ st ∧
       User.email u = str (Req.email req) ∧ User.role u = str (Req.role req) ∧
       str (Req.email req) ≠ "" ∧ str (Req.password req) ≠ "" ∧
       bcrypt_compare (str (Req.password req)) (User.password u) = true ∧
       t = generateToken (User._id u) (clock w).
Proof.
  intros Hrun Ht.
  destruct (login_runs req w st) as (r0 & Heq & Hcase).
  rewrite Heq in Hrun. injection Hrun as <- <-.
  inversion Hcase as [| | | |u Hf Hin He Hr Hc]; subst; try discriminate Ht.
  rewrite token_of_logged_in in Ht. injection Ht as <-.
  split; [done|]. split; [done|]. exists u.
  apply fields_present_inv in Hf as (Hfe & Hfp & _). done.
Qed.

(** A failing store, for a request that passes both checks of [register]:
    an error in the lookup, or an error in [save] once the lookup has found
    the email free, is answered with 500 and the driver's own message in
    the [error] member; nothing is written and no token is given. *)
Theorem register_store_failure email password role w st e :
  email ≠ "" → password ≠ "" → role ∈ User.role_enum →
  (findOne_fault w = Some e ∨
   (findOne_fault w = None ∧ (email ∉ User.email <$> st) ∧ save_fault w = Some e)) →
  register (request email password role) w st = (Ok (StoreUnavailable e), st) ∧
  member "error" (body (StoreUnavailable e)) = Some (JString e) ∧
  token_of (StoreUnavailable e) = None.
Proof.
  intros He Hp Hr Hfault.
  pose proof (fields_present_request _ _ _ He Hp (role_enum_nonempty _ Hr)) as Hf.
  split; [|done].
  destruct Hfault as [Hfind|(Hfind & Hnew & Hsave)].
  - by apply register_find_fault.
  - rewrite register_save by done. unfold User.save. by rewrite Hsave.
Qed.

(** Once [register] has answered 201 for an email, a later [register]
    with that email answers "User already exists" and writes nothing,
    whatever password and permitted role it comes with. *)
Theorem register_twice req w1 st r1 st1 password role w2 :
  register req w1 st = (Ok r1, st1) → status r1 = 201 →
  password ≠ "" → role ∈ User.role_enum → findOne_fault w2 = None →
  register (request (str (Req.email req)) password role) w2 st1 = (Ok DuplicateEmail, st1).
Proof.
  intros Hrun Hs Hp Hr Hfind.
  destruct (register_runs req w1 st) as (r & st' & Heq & Hcase).
  rewrite Heq in Hrun. injection Hrun as <- <-.
  inversion Hcase as [| | | |Hf _ _ _]; subst; try discriminate Hs.
  apply fields_present_inv in Hf as (He & _ & _).
  eapply register_duplicate with (u := User.stamp (clock w1) (drafted req w1)); try done.
  - by apply fields_present_request, role_enum_nonempty.
  - apply elem_of_app; right. by apply list_elem_of_singleton.
Qed.

(** After a successful [register], [login] with the same email is turned
    down under every other role ("User not found for this role") and with
    every password bcrypt does not accept against the digest just stored
    ("Invalid password"); neither attempt changes the store. *)
Theorem register_then_login_rejected email password role w1 w2 st :
  email ≠ "" → password ≠ "" → role ∈ User.role_enum →
  email ∉ User.email <$> st → objectid w1 ∉ User._id <$> st →
  findOne_fault w1 = None → save_fault w1 = None → findOne_fault w2 = None →
  bcrypt_hash password 10 (salt w1) ≠ "" →
  ∃ r1 st1,
    register (request email password role) w1 st = (Ok r1, st1) ∧ status r1 = 201 ∧
    (∀ password' role', password' ≠ "" → role' ≠ "" → role' ≠ role →
       login (request email password' role') w2 st1 = (Ok NotFoundForRole, st1)) ∧
    (∀ password', password' ≠ "" →
       bcrypt_compare password' (bcrypt_hash password 10 (salt w1)) = false →
       login (request email password' role) w2 st1 = (Ok InvalidPassword, st1)).
Proof.
  intros He Hp Hr Hnew Hid Hfind1 Hsave1 Hfind2 Hdigest.
  pose proof (role_enum_nonempty _ Hr) as Hr'.
  set (u := User.stamp (clock w1) (drafted (request email password role) w1)).
  exists (registered role u (clock w1)), (st ++ [u])%list.
  split; [by apply register_created|]. split; [done|]. split.
  - intros password' role' Hp' Hr'' Hne.
    rewrite login_lookup; [|by apply fields_present_request|done].
    change (str (Req.email _)) with email. change (str (Req.role _)) with role'.
    assert (head (filter (fun v => User.matches [("email", email); ("role", role')] v)
                    (st ++ [u])%list) = None) as ->; [|done].
    apply head_filter_None. intros v [Hv|Hv%list_elem_of_singleton]%elem_of_app
      [Hve Hvr]%matches_email_role.
    + apply Hnew, list_elem_of_fmap. eauto.
    + subst v. by apply Hne.
  - intros password' Hp' Hreject.
    rewrite login_lookup; [|by apply fields_present_request|done].
    change (str (Req.email (request email password' role))) with (User.email u).
    change (str (Req.role (request email password' role))) with (User.role u).
    rewrite findOne_inserted by done.
    change (bcrypt_compare _ _) with (bcrypt_compare password' (bcrypt_hash password 10 (salt w1))).
    by rewrite Hreject.
Qed.

(** What every store the handlers lead to from the empty one looks like:
    emails are unique, and each account has a non-empty email, one of the
    four roles, and as its password a cost-10 bcrypt digest of a non-empty
    string. *)
Theorem reachable_accounts st :
  reachable st →
  emails_unique st ∧
  ∀ u, u ∈ st →
    User.email u ≠ "" ∧ User.role u ∈ User.role_enum ∧
    ∃ plaintext salt, plaintext ≠ "" ∧ User.password u = bcrypt_hash plaintext 10 salt.
Proof.
  induction 1 as [|req w st _ [IHe IHu]|req w st _ IH].
  - split; [apply NoDup_nil_2|]. by intros u ?%elem_of_nil.
  - destruct (register_runs req w st) as (r & st' & -> & Hcase). cbn.
    inversion Hcase as [| | | |Hf Hr Hnew Hid]; subst; try done.
    split; [by apply emails_unique_snoc|].
    intros u [Hu|Hu%list_elem_of_singleton]%elem_of_app; [by apply IHu|]. subst u.
    apply fields_present_inv in Hf as (He & Hp & _).
    split; [done|]. split; [done|]. by eexists _, _.
  - destruct (login_runs req w st) as (r & -> & _). done.
Qed.
End Handlers.

(** ** The second routes file against [routes/authRoutes.js] *)

(** Unfolds a handler of the second file down to the store operations. *)
Ltac run_part000 :=
  unfold Part000.register, Part000.login, Part000.register_try, Part000.login_try;
  run_handler.

Section SecondFile.
Context {bcrypt : Bcrypt}.
Implicit Types (req : Req.body) (w : World) (st : Store) (u v : User.t) (r : response).

(** On every request, world and store the two files agree on [register]
    in all but the account they hand out: same store afterwards, same
    status, same [message]; the second file gives no token. *)
Theorem part000_register_agrees req w st :
  ∃ r r' st',
    register req w st = (Ok r, st') ∧ Part000.register req w st = (Ok r', st') ∧
    status r' = status r ∧
    member "message" (body r') = member "message" (body r) ∧
    token_of r' = None.
Proof.
  run_part000. rewrite fields_check.
  destruct (fields_present req); cbn [negb]; [|by eexists _, _, _].
  destruct (bool_decide _); cbn [negb]; [|by eexists _, _, _].
  destruct (findOne_fault w); [by eexists _, _, _|].
  destruct (head _); [by eexists _, _, _|].
  destruct (save_fault w); [by eexists _, _, _|].
  destruct (negb (User.validate _)); [by eexists _, _, _|].
  destruct (_ || _); by eexists _, _, _.
Qed.

(** The same for [login]. *)
Theorem part000_login_agrees req w st :
  ∃ r r',
    login req w st = (Ok r, st) ∧ Part000.login req w st = (Ok r', st) ∧
    status r' = status r ∧
    member "message" (body r') = member "message" (body r) ∧
    token_of r' = None.
Proof.
  run_part000. rewrite fields_check.
  destruct (fields_present req); cbn [negb]; [|by eexists _, _].
  destruct (findOne_fault w); [by eexists _, _|].
  destruct (head _); [|by eexists _, _].
  destruct (bcrypt_compare _ _); by eexists _, _.
Qed.

(** The second file hands out the stored digest.  Its 201 answer carries,
    as [user.password], the bcrypt digest it has just stored; its 200
    answer carries the digest of the account that logged in. *)
Theorem part000_answers_with_digest req w st r st' :
  (Part000.register req w st = (Ok r, st') → status r = 201 →
   member "user" (body r) ≫= member "password"
   = Some (JString (bcrypt_hash (str (Req.password req)) 10 (salt w)))) ∧
  (Part000.login req w st = (Ok r, st') → status r = 200 →
   ∃ u, u ∈ st ∧ User.email u = str (Req.email req) ∧ User.role u = str (Req.role req) ∧
        member "user" (body r) ≫= member "password" = Some (JString (User.password u))).
Proof.
  split.
  - run_part000. rewrite fields_check.
    destruct (fields_present req); cbn [negb]; [|by intros [= <- <-]].
    destruct (bool_decide _); cbn [negb]; [|by intros [= <- <-]].
    destruct (findOne_fault w); [by intros [= <- <-]|].
    destruct (head _); [by intros [= <- <-]|].
    destruct (save_fault w); [by intros [= <- <-]|].
    destruct (negb (User.validate _)); [by intros [= <- <-]|].
    destruct (_ || _); by intros [= <- <-].
  - run_part000. rewrite fields_check.
    destruct (fields_present req); cbn [negb]; [|by intros [= <- <-]].
    destruct (findOne_fault w); [by intros [= <- <-]|].
    destruct (head _) as [u|] eqn:Hhd; [|by intros [= <- <-]].
    apply head_filter_Some in Hhd as [Hin [He Hr]%matches_email_role].
    destruct (bcrypt_compare _ _); intros [= <- <-]; [|done].
    intros _. by exists u.
Qed.
End SecondFile.

(** ** [src/pages/Auth.tsx]: the page against the server *)

(** Unfolds a submission down to the handler of the server. *)
Ltac run_submit :=
  unfold handleSubmit, handleSubmit_try, finally, ctry_catch, cbind, cret, throw, fetch,
    set_page, localStorage_setItem, navigate, console_error, hook, on_page;
  cbn [page localStorage location console context db].

(** Splits a submission on everything it branches on: the mode, the
    network, the answer of the server, the token, the two hooks. *)
Ltac submit_step :=
  cbn beta iota zeta; cbn [page localStorage location console context db negb body fst snd];
  match goal with
  | |- context [Auth.isSignUp ?p] => destruct (Auth.isSignUp p)
  | |- context [network_error ?v] => destruct (network_error v)
  | |- context [register ?b ?w ?st] => destruct (register b w st) as [[?|?] ?]
  | |- context [login ?b ?w ?st] => destruct (login b w st) as [[?|?] ?]
  | |- context [Auth.ok ?r] => destruct (Auth.ok r)
  | |- context [member "token" ?d] => destruct (member "token" d)
  | |- context [js_truthy (Some ?t)] => destruct (js_truthy (Some t))
  | |- context [match ?f ?j ?c with (_, _) => _ end] => destruct (f j c) as [[[]|?] ?]
  end.

Section PageProperties.
Context {bcrypt : Bcrypt} {C : Type}.
Variable updateUserData : json → C → result unit * C.
Variable auth_login : option json → C → result unit * C.
Implicit Types (v : visit) (s : system C) (p : Auth.state) (r : response) (st : Store).

(** The handler of the server a submission of the page reaches. *)
Lemma role_sent_permitted p : Auth.role_sent p ∈ User.role_enum.
Proof.
  unfold Auth.role_sent. destruct (Auth.selectedRole p) as [[]|]; cbn;
    unfold User.role_enum; rewrite !elem_of_cons; tauto.
Qed.

(** [handleSubmit] always returns: what is thrown inside is caught and
    logged.  It ends with [isLoading] false and has changed no other cell
    of the component. *)
Theorem handleSubmit_returns v s :
  ∃ s', handleSubmit updateUserData auth_login v s = (Returned tt, s') ∧
        page s' = Auth.setIsLoading false (page s).
Proof.
  run_submit. repeat submit_step; by eexists.
Qed.
(** *** What the page reads in an answer *)

Lemma ok_status r : Auth.ok r = true ↔ 200 <= status r <= 299.
Proof. unfold Auth.ok. rewrite andb_true_iff, !bool_decide_eq_true. done. Qed.

Lemma data_logged_in role u now :
  Auth.ok (logged_in role u now) = true ∧
  member "token" (body (logged_in role u now)) = Some (JToken (generateToken (User._id u) now)) ∧
  member "user" (body (logged_in role u now)) = Some (account_view u).
Proof. done. Qed.

Lemma data_registered role u now :
  Auth.ok (registered role u now) = true ∧
  member "token" (body (registered role u now)) = Some (JToken (generateToken (User._id u) now)) ∧
  member "user" (body (registered role u now)) = Some (account_view u).
Proof. done. Qed.

Lemma data_user u :
  member "name" (account_view u) = None ∧
  member "collegeName" (account_view u) = None ∧
  member "email" (account_view u) = Some (JString (User.email u)) ∧
  member "role" (account_view u) = Some (JString (User.role u)).
Proof. done. Qed.

Lemma js_or_string (m d : string) : m ≠ "" → js_or (Some (JString m)) d = JString m.
Proof. intros Hs. unfold js_or, js_truthy. by rewrite bool_decide_eq_false_2. Qed.

(** The redirect for a permitted role. *)
Lemma panelPath_role_sent p :
  Auth.panelPath (Some (JString (Auth.role_sent p))) =
  match Auth.selectedRole p with
  | Some Auth.admin => "/admin/profile"
  | Some Auth.teacher => "/teacher/profile"
  | _ => "/"
  end.
Proof. unfold Auth.role_sent. by destruct (Auth.selectedRole p) as [[]|]. Qed.

(** An answer the page takes for a failure has a message to log. *)
Lemma served_not_ok p w st r st' :
  served p w st = (Ok r, st') → Auth.ok r = false →
  st' = st ∧ ∃ m, member "message" (body r) = Some (JString m) ∧ m ≠ "".
Proof.
  unfold served. destruct (Auth.isSignUp p); intros Hrun Hok.
  - destruct (register_runs (Auth.body_sent p) w st) as (r0 & st0 & Heq & Hcase).
    rewrite Heq in Hrun. injection Hrun as <- <-.
    inversion Hcase; subst; try discriminate Hok; (split; [done|]); by eexists.
  - destruct (login_runs (Auth.body_sent p) w st) as (r0 & Heq & Hcase).
    rewrite Heq in Hrun. injection Hrun as <- <-.
    inversion Hcase; subst; try discriminate Hok; (split; [done|]); by eexists.
Qed.

(** A submission the server turns down: whatever the mode, when the answer
    is not a 2xx one, the message of the server is logged (the fallback
    "Auth failed" is never needed with this server), and nothing else
    happens: no token is stored or replaced, the page does not navigate,
    the hooks are not called, and the collection of the server is as it
    was. *)
Theorem handleSubmit_rejected v s r st' :
  network_error v = None →
  served (page s) (server v) (db s) = (Ok r, st') → Auth.ok r = false →
  ∃ m, member "message" (body r) = Some (JString m) ∧ m ≠ "" ∧
       handleSubmit updateUserData auth_login v s =
       (Returned tt,
        {| page := Auth.setIsLoading false (page s); localStorage := localStorage s;
           location := location s; console := (console s ++ [JString m])%list;
           context := context s; db := db s |}).
Proof.
  intros Hnet Hrun Hok.
  destruct (served_not_ok _ _ _ _ _ Hrun Hok) as (-> & m & Hm & Hne).
  exists m. split; [done|]. split; [done|].
  run_submit. unfold served in Hrun.
  destruct (Auth.isSignUp (page s));
    cbn beta iota; cbn [page localStorage location console context db];
    rewrite Hnet, Hrun; cbn [body]; rewrite Hok; cbn [negb];
    rewrite Hm, (js_or_string _ _ Hne); done.
Qed.

(** A submission that does not get through: the error of [fetch] is
    logged, the server is not reached, and the browser is as it was. *)
Theorem handleSubmit_offline v s error :
  network_error v = Some error →
  handleSubmit updateUserData auth_login v s =
  (Returned tt,
   {| page := Auth.setIsLoading false (page s); localStorage := localStorage s;
      location := location s; console := (console s ++ [error])%list;
      context := context s; db := db s |}).
Proof.
  intros Hnet. run_submit.
  destruct (Auth.isSignUp (page s)); cbn beta iota; by rewrite Hnet.
Qed.

(** The page only sends roles the server permits, the default "student"
    included, so to a sign-up from the page [register] never answers
    "Invalid role". *)
Theorem page_role_always_permitted p w st :
  Auth.role_sent p ∈ User.role_enum ∧
  (register (Auth.body_sent p) w st).1 ≠ Ok InvalidInput_role.
Proof.
  split; [apply role_sent_permitted|].
  destruct (register_runs (Auth.body_sent p) w st) as (r & st' & -> & Hcase). cbn.
  inversion Hcase as [|Hf Hr| | |]; subst; try discriminate.
  destruct Hr. apply role_sent_permitted.
Qed.

(** *** Cells a submission does not depend on *)

Section Independent.
Context (f : Auth.state → Auth.state).

Lemma independent_cret {A} (a : A) : page_independent (C:=C) f (cret a).
Proof. done. Qed.

Lemma independent_throw {A} e : page_independent (C:=C) (A:=A) f (throw e).
Proof. done. Qed.

Lemma independent_cbind {A B} (m : Client C A) (k : A → Client C B) :
  page_independent f m → (∀ a, page_independent f (k a)) →
  page_independent f (cbind m k).
Proof.
  intros Hm Hk v s. unfold cbind. rewrite Hm.
  destruct (m v s) as [[a|e] s']; cbn [fst snd]; [apply Hk|done].
Qed.

Lemma independent_ctry_catch {A} (m : Client C A) (h : json → Client C A) :
  page_independent f m → (∀ e, page_independent f (h e)) →
  page_independent f (ctry_catch m h).
Proof.
  intros Hm Hh v s. unfold ctry_catch. rewrite Hm.
  destruct (m v s) as [[a|e] s']; cbn [fst snd]; [done|apply Hh].
Qed.

Lemma independent_finally {A} (m : Client C A) (g : Client C unit) :
  page_independent f m → page_independent f g →
  page_independent f (finally m g).
Proof.
  intros Hm Hg v s. unfold finally. rewrite Hm.
  destruct (m v s) as [o s']; cbn [fst snd]. rewrite Hg.
  by destruct (g v s') as [[[]|e] s''].
Qed.

Lemma independent_set_page (g : Auth.state → Auth.state) :
  (∀ p, g (f p) = f (g p)) → page_independent (C:=C) f (set_page g).
Proof. intros Hg v s. unfold set_page, on_page; cbn. by rewrite Hg. Qed.

Lemma independent_hook (h : C → result unit * C) : page_independent f (hook h).
Proof. intros v s. unfold hook, on_page; cbn. by destruct (h (context s)). Qed.

Lemma independent_fetch e b : page_independent (C:=C) f (fetch e b).
Proof.
  intros v s. unfold fetch, on_page; cbn.
  destruct (network_error v); [done|].
  destruct e; [by destruct (register b (server v) (db s))|by destruct (login b (server v) (db s))].
Qed.

(** The body of the [try] goes through whatever is done to the cells. *)
Lemma independent_handleSubmit_try p :
  page_independent f (handleSubmit_try updateUserData auth_login p).
Proof.
  unfold handleSubmit_try. apply independent_cbind.
  { destruct (Auth.isSignUp p); apply independent_fetch. }
  intros response. destruct (negb (Auth.ok response)); [apply independent_throw|].
  apply independent_cbind.
  { destruct (member "token" _) as [t|]; [|done]. by destruct (js_truthy (Some t)). }
  intros _. apply independent_cbind; [apply independent_hook|].
  intros _. apply independent_cbind; [apply independent_hook|]. done.
Qed.
End Independent.

(** [handleSubmit] does not look at [confirmPassword]: it never compares
    it with the password.  With any other content in that cell a
    submission does exactly the same, and leaves the cell as it found it. *)
Theorem handleSubmit_ignores_confirmPassword c v s :
  handleSubmit updateUserData auth_login v (on_page (Auth.setConfirmPassword c) s) =
  ((handleSubmit updateUserData auth_login v s).1,
   on_page (Auth.setConfirmPassword c) (handleSubmit updateUserData auth_login v s).2).
Proof.
  unfold handleSubmit.
  change (handleSubmit_try updateUserData auth_login
            (page (on_page (Auth.setConfirmPassword c) s)))
    with (handleSubmit_try updateUserData auth_login (page s)).
  apply independent_cbind; [by apply independent_set_page|].
  intros _. apply independent_finally; [|by apply independent_set_page].
  apply independent_ctry_catch; [apply independent_handleSubmit_try|done].
Qed.
(** *** Submissions the server accepts *)

(** What the page does with a 2xx answer that carries a token and the
    account [u], when both hooks return. *)
Lemma handleSubmit_accepted v s r st' u t :
  network_error v = None →
  served (page s) (server v) (db s) = (Ok r, st') →
  Auth.ok r = true →
  member "token" (body r) = Some (JToken t) →
  member "user" (body r) = Some (account_view u) →
  User.email u ≠ "" → User.role u ≠ "" →
  (∀ j c, (updateUserData j c).1 = Returned tt) →
  (∀ j c, (auth_login j c).1 = Returned tt) →
  handleSubmit updateUserData auth_login v s =
  (Returned tt,
   {| page := Auth.setIsLoading false (page s);
      localStorage := <["token" := JToken t]> (localStorage s);
      location := Some (Auth.panelPath (Some (JString (User.role u))));
      console := console s;
      context :=
        (auth_login (Some (account_view u))
           (updateUserData
              (JObject [("name", JString (Auth.name (page s)));
                        ("email", JString (User.email u));
                        ("course", JString (Auth.collegeName (page s)))])
              (context s)).2).2;
      db := st' |}).
Proof.
  intros Hnet Hrun Hok Htoken Huser He Hr Hupd Hlog.
  destruct (data_user u) as (Hname & Hcollege & Hemail & Hrole).
  run_submit. unfold served in Hrun.
  destruct (Auth.isSignUp (page s));
    cbn beta iota; cbn [page localStorage location console context db];
    rewrite Hnet, Hrun; cbn [body]; rewrite Hok; cbn [negb];
    rewrite Htoken, Huser; cbn [js_truthy mbind option_bind];
    cbn [page localStorage location console context db];
    rewrite Hname, Hcollege, Hemail, Hrole, (js_or_string _ _ He);
    unfold js_or at 1 2; cbn [js_truthy];
    (match goal with |- context [updateUserData ?j ?c] =>
       specialize (Hupd j c); destruct (updateUserData j c) as [o1 c1] end);
    cbn [fst snd] in *; subst o1;
    cbn [page localStorage location console context db];
    (match goal with |- context [auth_login ?j ?c] =>
       specialize (Hlog j c); destruct (auth_login j c) as [o2 c2] end);
    cbn [fst snd] in *; subst o2;
    cbn [page localStorage location console context db];
    rewrite (bool_decide_eq_false_2 _ Hr); done.
Qed.
(** Signing in from the page.  In sign-in mode, for an account of the
    server that has the email of the form and the role the page sends,
    with a password bcrypt accepts, a store with unique emails that
    answers, and hooks that return: the token of that account is put in
    [localStorage], the page navigates to the panel of the role
    ([/admin/profile], [/teacher/profile], or [/] for students and
    parents), nothing is logged, and the collection is not changed. *)
Theorem page_sign_in v s u :
  Auth.isSignUp (page s) = false →
  network_error v = None → findOne_fault (server v) = None →
  emails_unique (db s) → u ∈ db s →
  User.email u = Auth.email (page s) → User.role u = Auth.role_sent (page s) →
  Auth.email (page s) ≠ "" → Auth.password (page s) ≠ "" →
  bcrypt_compare (Auth.password (page s)) (User.password u) = true →
  (∀ j c, (updateUserData j c).1 = Returned tt) →
  (∀ j c, (auth_login j c).1 = Returned tt) →
  ∃ s', handleSubmit updateUserData auth_login v s = (Returned tt, s') ∧
        localStorage s' !! "token"
        = Some (JToken (generateToken (User._id u) (clock (server v)))) ∧
        location s' = Some (match Auth.selectedRole (page s) with
                            | Some Auth.admin => "/admin/profile"
                            | Some Auth.teacher => "/teacher/profile"
                            | _ => "/"
                            end) ∧
        console s' = console s ∧ db s' = db s.
Proof.
  intros Hmode Hnet Hfind Huniq Hin He Hr Hemail Hpw Hmatch Hupd Hlog.
  pose proof (role_enum_nonempty _ (role_sent_permitted (page s))) as Hrole.
  assert (served (page s) (server v) (db s)
          = (Ok (logged_in (User.role u) u (clock (server v))), db s)) as Hrun.
  { unfold served, Auth.body_sent. rewrite Hmode, <- He, <- Hr.
    rewrite login_lookup; [|apply fields_present_request; congruence|done].
    change (str (Req.email _)) with (User.email u).
    change (str (Req.role _)) with (User.role u).
    change (str (Req.password _)) with (Auth.password (page s)).
    by rewrite findOne_stored, Hmatch. }
  eexists. split.
  { eapply handleSubmit_accepted; try done; [apply data_logged_in..|congruence|congruence]. }
  cbn [localStorage location console db]. split; [apply lookup_insert_eq|].
  split; [|done]. by rewrite Hr, panelPath_role_sent.
Qed.

(** Signing up from the page.  In sign-up mode, with an email and a
    password in the form, an email the server does not have, a store that
    answers and hooks that return: the server gains one account with the
    email of the form and the role the page sends (the selected one, any of
    the four, [admin] included; "student" when none is selected), its
    token is put in [localStorage], and the page navigates to the panel of
    that role. *)
Theorem page_sign_up v s :
  Auth.isSignUp (page s) = true →
  network_error v = None →
  findOne_fault (server v) = None → save_fault (server v) = None →
  Auth.email (page s) ≠ "" → Auth.password (page s) ≠ "" →
  Auth.email (page s) ∉ User.email <$> db s →
  objectid (server v) ∉ User._id <$> db s →
  bcrypt_hash (Auth.password (page s)) 10 (salt (server v)) ≠ "" →
  (∀ j c, (updateUserData j c).1 = Returned tt) →
  (∀ j c, (auth_login j c).1 = Returned tt) →
  ∃ s' u, handleSubmit updateUserData auth_login v s = (Returned tt, s') ∧
          db s' = (db s ++ [u])%list ∧
          User.email u = Auth.email (page s) ∧
          User.role u = Auth.role_sent (page s) ∧
          localStorage s' !! "token"
          = Some (JToken (generateToken (User._id u) (clock (server v)))) ∧
          location s' = Some (match Auth.selectedRole (page s) with
                              | Some Auth.admin => "/admin/profile"
                              | Some Auth.teacher => "/teacher/profile"
                              | _ => "/"
                              end).
Proof.
  intros Hmode Hnet Hfind Hsave Hemail Hpw Hnew Hid Hdigest Hupd Hlog.
  pose proof (role_sent_permitted (page s)) as Hrole.
  set (u := User.stamp (clock (server v)) (drafted (Auth.body_sent (page s)) (server v))).
  assert (served (page s) (server v) (db s)
          = (Ok (registered (Auth.role_sent (page s)) u (clock (server v))),
             (db s ++ [u])%list)) as Hrun.
  { unfold served. rewrite Hmode. by apply register_created. }
  eexists _, u. split.
  { eapply handleSubmit_accepted; try done; [apply data_registered..|].
    by apply role_enum_nonempty. }
  cbn [localStorage location console db].
  split; [done|]. split; [done|]. split; [done|].
  split; [apply lookup_insert_eq|]. by rewrite <- panelPath_role_sent.
Qed.
End PageProperties.

(** *** The cells of the form *)

(** Choosing a role puts the page in sign-in mode with that role, whatever
    it was in before; the form is then on screen, on desktop and on mobile,
    and a submission is a [login], not a [register], under the chosen role. *)
Theorem role_select_then_submit `{Bcrypt} isMobile r p :
  let p' := Auth.handleRoleSelect isMobile r p in
  Auth.isSignUp p' = false ∧
  Auth.selectedRole p' = Some r ∧
  Auth.shows_form (Auth.render isMobile p') = true ∧
  served p' = login (request (Auth.email p) (Auth.password p) (Auth.role_string r)).
Proof.
  cbn zeta. unfold Auth.handleRoleSelect, served, Auth.body_sent, Auth.role_sent, Auth.render.
  destruct isMobile; cbn; [|done].
  by destruct (Auth.showRoleSelection p).
Qed.

(** The two steps of the sign-up form.  [formStep] stays 1 or 2 under every
    handler of the component; [nextStep] does nothing in sign-in mode and
    nothing the second time; from step 1, [prevStep] undoes [nextStep]. *)
Theorem form_steps p :
  (Auth.formStep p = 1 ∨ Auth.formStep p = 2 →
   ∀ isMobile r value p',
     p' ∈ [Auth.nextStep p; Auth.prevStep p; Auth.handleMobileBack p;
           Auth.AuthForm_setIsSignUp value p; Auth.handleRoleSelect isMobile r p] →
     Auth.formStep p' = 1 ∨ Auth.formStep p' = 2) ∧
  (Auth.isSignUp p = false → Auth.nextStep p = p) ∧
  Auth.nextStep (Auth.nextStep p) = Auth.nextStep p ∧
  (Auth.formStep p = 1 → Auth.prevStep (Auth.nextStep p) = p).
Proof.
  destruct p as [e pw cp n cn sp scp il fs smf sr srs su].
  unfold Auth.nextStep, Auth.prevStep, Auth.handleMobileBack, Auth.AuthForm_setIsSignUp,
    Auth.handleRoleSelect; cbn.
  split; [|split; [|split]].
  - intros Hfs isMobile r value p'. rewrite !elem_of_cons, elem_of_nil.
    intros [->|[->|[->|[->|[->|[]]]]]]; cbn; try tauto.
    + destruct su; cbn; [|tauto]. case_bool_decide; cbn; tauto.
    + case_bool_decide; cbn; tauto.
    + destruct sr; cbn; tauto.
    + destruct isMobile; cbn; tauto.
  - by intros ->.
  - destruct su; cbn; [|done]. case_bool_decide as Hfs; cbn; [done|].
    by rewrite bool_decide_eq_false_2.
  - intros ->. destruct su; cbn; done.
Qed.

(** ** The further properties on concrete requests *)

Lemma login_stored_account_witness :
  (bcrypt_compare (Bcrypt:=demo_bcrypt) "pw1" (User.password alice) = true →
   login (bcrypt:=demo_bcrypt) (request (User.email alice) "pw1" (User.role alice))
     (world 2000 8 "s2") [alice]
   = (Ok (logged_in (User.role alice) alice (clock (world 2000 8 "s2"))), [alice])) ∧
  (bcrypt_compare (Bcrypt:=demo_bcrypt) "pw1" (User.password alice) = false →
   login (bcrypt:=demo_bcrypt) (request (User.email alice) "pw1" (User.role alice))
     (world 2000 8 "s2") [alice] = (Ok InvalidPassword, [alice]) ∧
   token_of InvalidPassword = None).
Proof.
  apply (login_stored_account (bcrypt:=demo_bcrypt) "pw1" (world 2000 8 "s2") [alice] alice);
    solve [reflexivity | by_evaluation].
Defined.

Lemma login_unknown_email_witness :
  login (bcrypt:=demo_bcrypt) (request "b@x.com" "pw1" "student") (world 2000 8 "s2") [alice]
  = (Ok NotFoundForRole, [alice]).
Proof.
  apply (login_unknown_email (bcrypt:=demo_bcrypt) "b@x.com" "pw1" "student"
           (world 2000 8 "s2") [alice]);
    solve [reflexivity | by_evaluation].
Defined.

Lemma login_token_sound_witness :
  status (logged_in "student" alice 2000) = 200 ∧ [alice] = [alice] ∧
  ∃ u, u ∈ [alice] ∧
       User.email u = str (Req.email (request "a@x.com" "pw1" "student")) ∧
       User.role u = str (Req.role (request "a@x.com" "pw1" "student")) ∧
       str (Req.email (request "a@x.com" "pw1" "student")) ≠ "" ∧
       str (Req.password (request "a@x.com" "pw1" "student")) ≠ "" ∧
       bcrypt_compare (Bcrypt:=demo_bcrypt)
         (str (Req.password (request "a@x.com" "pw1" "student"))) (User.password u) = true ∧
       generateToken 7 2000 = generateToken (User._id u) (clock (world 2000 8 "s2")).
Proof.
  apply (login_token_sound (bcrypt:=demo_bcrypt) (request "a@x.com" "pw1" "student")
           (world 2000 8 "s2") [alice] (logged_in "student" alice 2000) [alice]
           (generateToken 7 2000));
    reflexivity.
Defined.

Lemma register_store_failure_witness :
  register (bcrypt:=demo_bcrypt) (request "b@x.com" "pw2" "parent") (outage "ECONNREFUSED") [alice]
  = (Ok (StoreUnavailable "ECONNREFUSED"), [alice]) ∧
  member "error" (body (StoreUnavailable "ECONNREFUSED")) = Some (JString "ECONNREFUSED") ∧
  token_of (StoreUnavailable "ECONNREFUSED") = None.
Proof.
  apply (register_store_failure (bcrypt:=demo_bcrypt) "b@x.com" "pw2" "parent"
           (outage "ECONNREFUSED") [alice] "ECONNREFUSED");
    solve [by_evaluation | left; reflexivity].
Defined.

Lemma register_twice_witness :
  register (bcrypt:=demo_bcrypt)
    (request (str (Req.email (request "a@x.com" "pw1" "student"))) "pw2" "teacher")
    (world 3000 9 "s3") [alice]
  = (Ok DuplicateEmail, [alice]).
Proof.
  apply (register_twice (bcrypt:=demo_bcrypt) (request "a@x.com" "pw1" "student")
           (world 1000 7 "s1") [] (registered "student" alice 1000) [alice]
           "pw2" "teacher" (world 3000 9 "s3"));
    solve [reflexivity | by_evaluation].
Defined.

Lemma register_then_login_rejected_witness :
  ∃ r1 st1,
    register (bcrypt:=demo_bcrypt) (request "a@x.com" "pw1" "student") (world 1000 7 "s1") []
    = (Ok r1, st1) ∧ status r1 = 201 ∧
    (∀ password' role', password' ≠ "" → role' ≠ "" → role' ≠ "student" →
       login (bcrypt:=demo_bcrypt) (request "a@x.com" password' role') (world 2000 8 "s2") st1
       = (Ok NotFoundForRole, st1)) ∧
    (∀ password', password' ≠ "" →
       bcrypt_compare (Bcrypt:=demo_bcrypt) password'
         (bcrypt_hash (Bcrypt:=demo_bcrypt) "pw1" 10 (salt (world 1000 7 "s1"))) = false →
       login (bcrypt:=demo_bcrypt) (request "a@x.com" password' "student") (world 2000 8 "s2") st1
       = (Ok InvalidPassword, st1)).
Proof.
  apply (register_then_login_rejected (bcrypt:=demo_bcrypt) "a@x.com" "pw1" "student"
           (world 1000 7 "s1") (world 2000 8 "s2") []);
    solve [reflexivity | by_evaluation].
Defined.

Lemma reachable_accounts_witness :
  emails_unique [alice] ∧
  ∀ u, u ∈ [alice] →
    User.email u ≠ "" ∧ User.role u ∈ User.role_enum ∧
    ∃ plaintext salt, plaintext ≠ "" ∧
      User.password u = bcrypt_hash (Bcrypt:=demo_bcrypt) plaintext 10 salt.
Proof.
  apply (reachable_accounts (bcrypt:=demo_bcrypt) [alice]).
  exact (reachable_register (bcrypt:=demo_bcrypt) (request "a@x.com" "pw1" "student")
           (world 1000 7 "s1") [] reachable_empty).
Defined.

Lemma handleSubmit_rejected_witness :
  ∃ m, member "message" (body NotFoundForRole) = Some (JString m) ∧ m ≠ "" ∧
       handleSubmit (bcrypt:=demo_bcrypt) no_hook no_hook (online (world 2000 8 "s2"))
         (browser (alice_form false (Some Auth.teacher)) [alice]) =
       (Returned tt,
        {| page := Auth.setIsLoading false (alice_form false (Some Auth.teacher));
           localStorage := ∅; location := None; console := ([] ++ [JString m])%list;
           context := tt; db := [alice] |}).
Proof.
  apply (handleSubmit_rejected (bcrypt:=demo_bcrypt) no_hook no_hook (online (world 2000 8 "s2"))
           (browser (alice_form false (Some Auth.teacher)) [alice]) NotFoundForRole [alice]);
    reflexivity.
Defined.

Lemma handleSubmit_offline_witness :
  handleSubmit (bcrypt:=demo_bcrypt) no_hook no_hook
    {| network_error := Some (JString "Failed to fetch"); server := world 2000 8 "s2" |}
    (browser (alice_form false (Some Auth.student)) [alice]) =
  (Returned tt,
   {| page := Auth.setIsLoading false (alice_form false (Some Auth.student));
      localStorage := ∅; location := None;
      console := ([] ++ [JString "Failed to fetch"])%list; context := tt; db := [alice] |}).
Proof.
  apply (handleSubmit_offline (bcrypt:=demo_bcrypt) no_hook no_hook
           {| network_error := Some (JString "Failed to fetch"); server := world 2000 8 "s2" |}
           (browser (alice_form false (Some Auth.student)) [alice]) (JString "Failed to fetch")).
  reflexivity.
Defined.

Lemma page_sign_in_witness :
  ∃ s', handleSubmit (bcrypt:=demo_bcrypt) no_hook no_hook (online (world 2000 8 "s2"))
          (browser (alice_form false (Some Auth.student)) [alice]) = (Returned tt, s') ∧
        localStorage s' !! "token" = Some (JToken (generateToken 7 2000)) ∧
        location s' = Some "/" ∧
        console s' = [] ∧ db s' = [alice].
Proof.
  apply (page_sign_in (bcrypt:=demo_bcrypt) no_hook no_hook (online (world 2000 8 "s2"))
           (browser (alice_form false (Some Auth.student)) [alice]) alice);
    solve [reflexivity | by_evaluation | intros; reflexivity].
Defined.

Lemma page_sign_up_witness :
  ∃ s' u, handleSubmit (bcrypt:=demo_bcrypt) no_hook no_hook (online (world 1000 7 "s1"))
            (browser (alice_form true (Some Auth.admin)) []) = (Returned tt, s') ∧
          db s' = ([] ++ [u])%list ∧
          User.email u = "a@x.com" ∧
          User.role u = "admin" ∧
          localStorage s' !! "token" = Some (JToken (generateToken (User._id u) 1000)) ∧
          location s' = Some "/admin/profile".
Proof.
  apply (page_sign_up (bcrypt:=demo_bcrypt) no_hook no_hook (online (world 1000 7 "s1"))
           (browser (alice_form true (Some Auth.admin)) []));
    solve [reflexivity | by_evaluation | intros; reflexivity].
Defined.
